(** * Cura frontend: a model of [frontend/App.jsx]

    The chat component keeps seven pieces of React state and changes them in
    three handlers: the textarea's [onChange], the avatar buttons' [onClick]
    and [handleSend] (bound to the Send button and to Enter).  This file
    embeds that state machine and settles the properties stated about it.

    JavaScript strings are sequences of UTF-16 code units, values are the
    dynamically typed values a parsed JSON response can hold, and the [try]
    block of [handleSend] runs in a state monad in which the state written
    before a [throw] stays written, as [setState] calls do.

    [handleSend] is an async function.  It is split at its [await] into
    [handleSend_begin], which ends with the request being issued, and
    [handleSend_settle], which runs when the response or the error arrives
    and is given the [avatarState] the call captured.  [run] takes the two
    halves of a call together, one turn after another; [play] follows the
    renders and the requests in flight under any schedule. *)

From Stdlib Require Import List Arith NArith Bool String Ascii Lia.
Import ListNotations.

Local Open Scope list_scope.
Set Warnings "-register-all".

(** ** Strings *)

Definition code_unit := N.
Definition jsstring := list code_unit.

(** An ASCII literal of the source as a sequence of code units. *)
Fixpoint lit (s : string) : jsstring :=
  match s with
  | EmptyString => []
  | String a rest => N_of_ascii a :: lit rest
  end.

Fixpoint str_eqb (a b : jsstring) : bool :=
  match a, b with
  | [], [] => true
  | x :: a', y :: b' => N.eqb x y && str_eqb a' b'
  | _, _ => false
  end.

(** WhiteSpace and LineTerminator of ECMAScript: what [String.prototype.trim]
    strips.  All of them are single code units. *)
Definition is_white_space (c : code_unit) : bool :=
  existsb (N.eqb c)
    [ 9; 10; 11; 12; 13; 32; 160; 5760;
      8192; 8193; 8194; 8195; 8196; 8197; 8198; 8199; 8200; 8201; 8202;
      8232; 8233; 8239; 8287; 12288; 65279 ]%N.

Fixpoint trim_start (s : jsstring) : jsstring :=
  match s with
  | [] => []
  | c :: rest => if is_white_space c then trim_start rest else s
  end.

Definition trim_end (s : jsstring) : jsstring := rev (trim_start (rev s)).

(** [s.trim()] *)
Definition trim (s : jsstring) : jsstring := trim_end (trim_start s).

(** ** Values *)

(** A number is kept as the text [Number.prototype.toString] gives for it
    (["0"], ["-1.5"], ["1e+21"], ["NaN"]); that text determines the number up
    to the sign of zero, which nothing here observes. *)
Inductive value : Type :=
| VUndefined
| VNull
| VBool (b : bool)
| VNum (repr : jsstring)
| VStr (s : jsstring)
| VArr (items : list value)
| VObj (fields : list (jsstring * value)).

(** ToBoolean: the falsy values are [undefined], [null], [false], [0], [NaN]
    and the empty string. *)
Definition to_boolean (v : value) : bool :=
  match v with
  | VUndefined | VNull => false
  | VBool b => b
  | VNum r => negb (str_eqb r (lit "0") || str_eqb r (lit "NaN"))
  | VStr s => match s with [] => false | _ => true end
  | VArr _ | VObj _ => true
  end.

(** [a || b] and [a && b] *)
Definition js_or (a b : value) : value := if to_boolean a then a else b.
Definition js_and (a b : value) : value := if to_boolean a then b else a.

Fixpoint lookup (name : jsstring) (fields : list (jsstring * value)) : value :=
  match fields with
  | [] => VUndefined
  | (k, v) :: rest => if str_eqb k name then v else lookup name rest
  end.

Definition nullish (v : value) : bool :=
  match v with
  | VUndefined | VNull => true
  | _ => false
  end.

(** What [v.name] evaluates to when [v] is neither [null] nor [undefined],
    for the names this component reads ([session_id], [reply],
    [avatar_state], [debug], [affect_state]): an own property of an object,
    and [undefined] on anything else, since no prototype defines them. *)
Definition member (v : value) (name : jsstring) : value :=
  match v with
  | VObj fields => lookup name fields
  | _ => VUndefined
  end.

(** ToString, as a template literal applies it to [${v}]. *)
Fixpoint to_string (v : value) : jsstring :=
  match v with
  | VUndefined => lit "undefined"
  | VNull => lit "null"
  | VBool true => lit "true"
  | VBool false => lit "false"
  | VNum r => r
  | VStr s => s
  | VArr items =>
      (fix join (l : list value) : jsstring :=
         match l with
         | [] => []
         | x :: rest =>
             let elem := match x with
                         | VUndefined | VNull => []
                         | _ => to_string x
                         end in
             match rest with
             | [] => elem
             | _ => elem ++ lit "," ++ join rest
             end
         end) items
  | VObj _ => lit "[object Object]"
  end.

(** ToPrimitive without a hint, as the [+] operator applies it: an array or a
    plain object has a [valueOf] that returns the object itself, so its
    [toString] decides. *)
Definition to_primitive (v : value) : value :=
  match v with
  | VArr _ | VObj _ => VStr (to_string v)
  | _ => v
  end.

(** [s + v] for a string [s]: string concatenation. *)
Definition plus_string (s : jsstring) (v : value) : jsstring :=
  s ++ to_string (to_primitive v).

(** ** Component state *)

Inductive Role := user | assistant.

Record Message := { role : Role; content : value }.

Record AppState := {
  messages : list Message;
  input : jsstring;
  sessionId : value;
  avatarState : value;
  affect : value;
  affectState : value;
  debug : value
}.

Definition AVATAR_STATES : list jsstring :=
  [ lit "welcoming"; lit "listening"; lit "concerned"; lit "supportive";
    lit "thinking" ].

(** The [useState] initial values. *)
Definition initial_state : AppState :=
  {| messages :=
       [ {| role := assistant;
            content := VStr (lit "Hello, I'm Dr. Lane. What would you like to talk about today?") |} ];
     input := [];
     sessionId := VNull;
     avatarState := VStr (lit "welcoming");
     affect := VStr (lit "a little tense but open");
     affectState := VStr (lit "emotionally neutral");
     debug := VObj [] |}.

Definition setMessages (m : list Message) (st : AppState) : AppState :=
  {| messages := m; input := input st; sessionId := sessionId st;
     avatarState := avatarState st; affect := affect st;
     affectState := affectState st; debug := debug st |}.

Definition setInput (s : jsstring) (st : AppState) : AppState :=
  {| messages := messages st; input := s; sessionId := sessionId st;
     avatarState := avatarState st; affect := affect st;
     affectState := affectState st; debug := debug st |}.

Definition setSessionId (v : value) (st : AppState) : AppState :=
  {| messages := messages st; input := input st; sessionId := v;
     avatarState := avatarState st; affect := affect st;
     affectState := affectState st; debug := debug st |}.

Definition setAvatarState (v : value) (st : AppState) : AppState :=
  {| messages := messages st; input := input st; sessionId := sessionId st;
     avatarState := v; affect := affect st;
     affectState := affectState st; debug := debug st |}.

Definition setAffectState (v : value) (st : AppState) : AppState :=
  {| messages := messages st; input := input st; sessionId := sessionId st;
     avatarState := avatarState st; affect := affect st;
     affectState := v; debug := debug st |}.

Definition setDebug (v : value) (st : AppState) : AppState :=
  {| messages := messages st; input := input st; sessionId := sessionId st;
     avatarState := avatarState st; affect := affect st;
     affectState := affectState st; debug := v |}.

(** The object handed to [JSON.stringify] as the body of [POST /api/chat]. *)
Module Body.
Record t := {
  session_id : value;
  user_message : jsstring;
  affect : value;
  avatar_state : value
}.
End Body.

(** What the awaited [fetch(...)] and [res.json()] come to. *)
Inductive FetchOutcome :=
| Rejects (err : jsstring)   (* either promise rejects; [err] is [`${err}`] *)
| Resolves (data : value).   (* [res.json()] resolves with [data] *)

(** ** Effects of the [try] block *)

Inductive completion (A : Type) : Type :=
| Normal (a : A)
| Throw (err : jsstring).
Arguments Normal {A} a.
Arguments Throw {A} err.

(** State written before a throw stays written. *)
Definition Eff (A : Type) : Type := AppState -> AppState * completion A.

Definition ret {A} (a : A) : Eff A := fun st => (st, Normal a).

Definition bind {A B} (m : Eff A) (k : A -> Eff B) : Eff B :=
  fun st =>
    match m st with
    | (st', Normal a) => k a st'
    | (st', Throw e) => (st', Throw e)
    end.

Definition throw {A} (err : jsstring) : Eff A := fun st => (st, Throw err).

Definition update (f : AppState -> AppState) : Eff unit :=
  fun st => (f st, Normal tt).

Definition try_catch (body : Eff unit) (handler : jsstring -> Eff unit) : Eff unit :=
  fun st =>
    match body st with
    | (st', Normal tt) => (st', Normal tt)
    | (st', Throw e) => handler e st'
    end.

Declare Scope eff_scope.
Delimit Scope eff_scope with eff.
Notation "x <- m ;; k" := (bind m (fun x => k))
  (at level 61, m at next level, right associativity) : eff_scope.
Notation "m ;; k" := (bind m (fun _ => k))
  (at level 61, right associativity) : eff_scope.

(** V8's rendering of the TypeError raised by reading a property of [null]
    or [undefined]; used where a concrete engine is needed. *)
Definition v8_type_error (v : value) (name : jsstring) : jsstring :=
  lit "TypeError: Cannot read properties of " ++ to_string v
    ++ lit " (reading '" ++ name ++ lit "')".

(** A response of the backend as the README describes it, with the given
    [avatar_state]. *)
Definition sample_response (avatar : value) : value :=
  VObj [ (lit "session_id", VStr (lit "s-1"));
         (lit "reply", VStr (lit "That sounds hard."));
         (lit "avatar_state", avatar);
         (lit "debug", VObj [ (lit "affect_state", VStr (lit "sad")) ]) ].

Section Handlers.

(** How the engine renders the TypeError raised by reading a property of
    [null] or [undefined]: base value and property name to [`${err}`]. *)
Variable type_error : value -> jsstring -> jsstring.

(** [v.name]: reading a property of [null] or [undefined] throws. *)
Definition get_prop (v : value) (name : jsstring) : Eff value :=
  if nullish v then throw (type_error v name) else ret (member v name).

Definition await (outcome : FetchOutcome) : Eff value :=
  match outcome with
  | Rejects err => throw err
  | Resolves data => ret data
  end.

Local Open Scope eff_scope.

(** Lines 34-55.  [avatarState0] is the [avatarState] the closure of this
    call captured. *)
Definition try_block (avatarState0 : value) (outcome : FetchOutcome) : Eff unit :=
  data <- await outcome ;;
  sid <- get_prop data (lit "session_id") ;;
  update (setSessionId sid) ;;
  reply <- get_prop data (lit "reply") ;;
  update (fun st => setMessages (messages st ++ [ {| role := assistant; content := reply |} ]) st) ;;
  av <- get_prop data (lit "avatar_state") ;;
  update (setAvatarState (js_or av avatarState0)) ;;
  dbg <- get_prop data (lit "debug") ;;
  update (setDebug (js_or dbg (VObj []))) ;;
  d1 <- get_prop data (lit "debug") ;;
  cond <- (if to_boolean d1
           then d2 <- get_prop data (lit "debug") ;; get_prop d2 (lit "affect_state")
           else ret d1) ;;
  if to_boolean cond
  then d3 <- get_prop data (lit "debug") ;;
       a <- get_prop d3 (lit "affect_state") ;;
       update (setAffectState a)
  else ret tt.

Definition error_message (err : jsstring) : Message :=
  {| role := assistant;
     content := VStr (lit "(Error contacting backend: " ++ err ++ lit ")") |}.

(** Lines 57-62. *)
Definition catch_block (err : jsstring) : Eff unit :=
  update (fun st => setMessages (messages st ++ [error_message err]) st).

Definition user_message_of (text : jsstring) : Message :=
  {| role := user; content := VStr text |}.

(** Lines 26-43: everything up to the [fetch] call.  [None] is the early
    [return]; otherwise the state after [setMessages] and [setInput] and
    the body of the request that is sent. *)
Definition handleSend_begin (st : AppState) : option (AppState * Body.t) :=
  let text := trim (input st) in
  if negb (to_boolean (VStr text)) then None
  else
    let newMessages := messages st ++ [user_message_of text] in
    Some (setInput [] (setMessages newMessages st),
          {| Body.session_id := sessionId st;
             Body.user_message := text;
             Body.affect := affect st;
             Body.avatar_state := avatarState st |}).

(** Lines 33-62: the [try]/[catch] once the awaited promises settle. *)
Definition handleSend_settle (avatarState0 : value) (outcome : FetchOutcome)
    (st : AppState) : AppState :=
  fst (try_catch (try_block avatarState0 outcome) catch_block st).

Definition handleSend (st : AppState) (outcome : FetchOutcome)
    : AppState * option Body.t :=
  match handleSend_begin st with
  | None => (st, None)
  | Some (st1, body) =>
      (handleSend_settle (avatarState st) outcome st1, Some body)
  end.

Definition handleKeyDown (key : jsstring) (shiftKey : bool) (st : AppState)
    (outcome : FetchOutcome) : AppState * option Body.t :=
  if str_eqb key (lit "Enter") && negb shiftKey
  then handleSend st outcome
  else (st, None).

(** Line 72. *)
Definition currentAvatarSrc (st : AppState) : jsstring :=
  lit "/avatars/" ++ to_string (avatarState st) ++ lit ".png".

(** ** Events *)

Inductive Event :=
| Change (text : jsstring)          (* textarea [onChange] *)
| ClickAvatar (i : nat)             (* the [i]-th avatar button *)
| ClickSend (outcome : FetchOutcome)
| KeyDown (key : jsstring) (shiftKey : bool) (outcome : FetchOutcome).

Definition step (st : AppState) (ev : Event) : AppState * option Body.t :=
  match ev with
  | Change text => (setInput text st, None)
  | ClickAvatar i =>
      match nth_error AVATAR_STATES i with
      | Some state => (setAvatarState (VStr state) st, None)
      | None => (st, None)
      end
  | ClickSend outcome => handleSend st outcome
  | KeyDown key shiftKey outcome => handleKeyDown key shiftKey st outcome
  end.

(** The state after a list of events and the request bodies sent, oldest
    first. *)
Fixpoint run (st : AppState) (evs : list Event) : AppState * list Body.t :=
  match evs with
  | [] => (st, [])
  | ev :: rest =>
      let '(st1, sent) := step st ev in
      let '(st2, later) := run st1 rest in
      (st2, match sent with Some b => b :: later | None => later end)
  end.

(** ** Vocabulary of the statements *)

(** The state a response [data] that is neither [null] nor [undefined] leaves
    behind: what lines 46-55 write, in order. *)
Definition response_applied (avatarState0 data : value) (st : AppState) : AppState :=
  let d := member data (lit "debug") in
  let st4 :=
    setDebug (js_or d (VObj []))
      (setAvatarState (js_or (member data (lit "avatar_state")) avatarState0)
         (setMessages
            (messages (setSessionId (member data (lit "session_id")) st)
               ++ [ {| role := assistant; content := member data (lit "reply") |} ])
            (setSessionId (member data (lit "session_id")) st))) in
  if to_boolean (js_and d (member d (lit "affect_state")))
  then setAffectState (member d (lit "affect_state")) st4
  else st4.

(** Membership of a value in [AVATAR_STATES]. *)
Definition in_avatar_states (v : value) : bool :=
  match v with
  | VStr s => existsb (str_eqb s) AVATAR_STATES
  | _ => false
  end.

Definition nonempty_string (v : value) : bool :=
  match v with
  | VStr (_ :: _) => true
  | _ => false
  end.

Definition is_string (v : value) : bool :=
  match v with
  | VStr _ => true
  | _ => false
  end.

(** The property [name] of the response a settled request brings:
    [undefined] when there is no response to read it from. *)
Definition offered (name : jsstring) (outcome : FetchOutcome) : value :=
  match outcome with
  | Rejects _ => VUndefined
  | Resolves data => member data name
  end.

Definition outcome_of (ev : Event) : option FetchOutcome :=
  match ev with
  | ClickSend outcome | KeyDown _ _ outcome => Some outcome
  | _ => None
  end.

(** Every response in the event offers an [avatar_state] accepted by [ok], or
    a falsy one. *)
Definition avatar_offers (ok : value -> bool) (ev : Event) : bool :=
  match outcome_of ev with
  | Some outcome =>
      negb (to_boolean (offered (lit "avatar_state") outcome))
      || ok (offered (lit "avatar_state") outcome)
  | None => true
  end.

(** A response the [try] block runs through without throwing. *)
Definition succeeds (outcome : FetchOutcome) : bool :=
  match outcome with
  | Rejects _ => false
  | Resolves data => negb (nullish data)
  end.

(** A call of [handleSend] that gets past the early return and whose [try]
    block runs through. *)
Definition completes (st : AppState) (outcome : FetchOutcome) : bool :=
  to_boolean (VStr (trim (input st))) && succeeds outcome.

(** An event that cannot complete a turn successfully. *)
Definition quiet (ev : Event) : bool :=
  match outcome_of ev with
  | Some outcome => negb (succeeds outcome)
  | None => true
  end.

(** One turn: the user types [text] and sends it; the backend answers [data]. *)
Definition Turn : Type := jsstring * value.

Definition turn_events (t : Turn) : list Event :=
  [ Change (fst t); ClickSend (Resolves (snd t)) ].

Definition turn_messages (t : Turn) : list Message :=
  [ user_message_of (trim (fst t));
    {| role := assistant; content := member (snd t) (lit "reply") |} ].

Definition successful (t : Turn) : bool :=
  to_boolean (VStr (trim (fst t))) && succeeds (Resolves (snd t)).

(** ** The rest of the component *)

(** [state === v] for a string [state]: equal only to the same string. *)
Definition strict_eq_string (state : jsstring) (v : value) : bool :=
  match v with
  | VStr s => str_eqb state s
  | _ => false
  end.

(** Lines 88-96: the [className] of the avatar buttons, in the order of
    [AVATAR_STATES]. *)
Definition avatar_button_classes (st : AppState) : list jsstring :=
  map (fun state =>
         if strict_eq_string state (avatarState st) then lit "active" else [])
      AVATAR_STATES.

(** The members [JSON.stringify] writes for the body object of lines 37-42,
    in order: a member whose value is [undefined] is left out. *)
Definition body_members (b : Body.t) : list (jsstring * value) :=
  filter (fun kv => match snd kv with VUndefined => false | _ => true end)
    [ (lit "session_id", Body.session_id b);
      (lit "user_message", VStr (Body.user_message b));
      (lit "affect", Body.affect b);
      (lit "avatar_state", Body.avatar_state b) ].

Definition assistant_message (c : value) : Message :=
  {| role := assistant; content := c |}.

(** *** Renders and requests in flight

    A handler is a closure of the render that created it: [handleSend] reads
    [input], [messages], [sessionId], [affect] and [avatarState] as that
    render saw them, while the setters write the state the next render will
    see.  After its [await] the call goes on in the same closure, where it
    reads [avatarState] only, and writes [messages] with an updater that is
    given the state as it is then.  A request in flight is therefore kept as
    the [avatarState] its call captured.  Events are handled, and requests
    settle, in any order, and a render may or may not have come in between. *)
Definition Flights : Type := list value.

Record Live := {
  rendered : AppState;   (* the state the last render saw *)
  current : AppState;    (* the state the setters have written *)
  flights : Flights      (* the requests in flight, oldest first *)
}.

(** A component that has rendered its state and awaits nothing. *)
Definition at_rest (st : AppState) : Live :=
  {| rendered := st; current := st; flights := [] |}.

Definition set_state (f : AppState -> AppState) (l : Live) : Live :=
  {| rendered := rendered l; current := f (current l); flights := flights l |}.

Inductive Happening :=
| Typed (text : jsstring)                        (* textarea [onChange] *)
| AvatarClicked (i : nat)                        (* the [i]-th avatar button *)
| SendClicked                                    (* [handleSend] up to its [await] *)
| KeyPressed (key : jsstring) (shiftKey : bool)  (* [handleKeyDown] *)
| Settled (k : nat) (outcome : FetchOutcome)     (* the [k]-th request in flight settles *)
| Rendered.                                      (* the component renders again *)

Definition remove_nth {A} (k : nat) (l : list A) : list A :=
  firstn k l ++ skipn (S k) l.

(** Lines 26-43 in the closure of the last render. *)
Definition send_begins (l : Live) : Live * option Body.t :=
  let seen := rendered l in
  let text := trim (input seen) in
  if negb (to_boolean (VStr text)) then (l, None)
  else
    let newMessages := messages seen ++ [ {| role := user; content := VStr text |} ] in
    ({| rendered := seen;
        current := setInput [] (setMessages newMessages (current l));
        flights := flights l ++ [avatarState seen] |},
     Some {| Body.session_id := sessionId seen;
             Body.user_message := text;
             Body.affect := affect seen;
             Body.avatar_state := avatarState seen |}).

Definition happen (l : Live) (h : Happening) : Live * option Body.t :=
  match h with
  | Typed text => (set_state (setInput text) l, None)
  | AvatarClicked i =>
      match nth_error AVATAR_STATES i with
      | Some state => (set_state (setAvatarState (VStr state)) l, None)
      | None => (l, None)
      end
  | SendClicked => send_begins l
  | KeyPressed key shiftKey =>
      if str_eqb key (lit "Enter") && negb shiftKey
      then send_begins l
      else (l, None)
  | Settled k outcome =>
      match nth_error (flights l) k with
      | Some avatarState0 =>
          ({| rendered := rendered l;
              current := handleSend_settle avatarState0 outcome (current l);
              flights := remove_nth k (flights l) |},
           None)
      | None => (l, None)
      end
  | Rendered =>
      ({| rendered := current l; current := current l; flights := flights l |},
       None)
  end.

Fixpoint play (l : Live) (hs : list Happening) : Live * list Body.t :=
  match hs with
  | [] => (l, [])
  | h :: rest =>
      let '(l1, sent) := happen l h in
      let '(l2, later) := play l1 rest in
      (l2, match sent with Some b => b :: later | None => later end)
  end.

(** An event of [run] as what happens when its request settles, and the
    component renders, before anything else is done. *)
Definition happenings_of (ev : Event) : list Happening :=
  match ev with
  | Change text => [Typed text; Rendered]
  | ClickAvatar i => [AvatarClicked i; Rendered]
  | ClickSend outcome => [SendClicked; Settled 0 outcome; Rendered]
  | KeyDown key shiftKey outcome =>
      [KeyPressed key shiftKey; Settled 0 outcome; Rendered]
  end.

(** Happenings that start and settle no request. *)
Definition idle (h : Happening) : bool :=
  match h with
  | Typed _ | AvatarClicked _ | Rendered => true
  | _ => false
  end.

(** Every response that settles offers an [avatar_state] accepted by [ok],
    or a falsy one. *)
Definition settles_with (ok : value -> bool) (h : Happening) : bool :=
  match h with
  | Settled _ outcome =>
      negb (to_boolean (offered (lit "avatar_state") outcome))
      || ok (offered (lit "avatar_state") outcome)
  | _ => true
  end.

(** Whether, after [h], the last render has seen the history as it is now,
    given whether it had before. *)
Definition history_in_view (seen : bool) (h : Happening) : bool :=
  match h with
  | Rendered => true
  | Typed _ | AvatarClicked _ => seen
  | SendClicked | KeyPressed _ _ | Settled _ _ => false
  end.

(** Every send of [hs] is made by a render that has seen the history as it
    then is: a render has come since the last send or settling. *)
Fixpoint sends_see_history (seen : bool) (hs : list Happening) : bool :=
  match hs with
  | [] => true
  | h :: rest =>
      match h with
      | SendClicked | KeyPressed _ _ => seen
      | _ => true
      end
      && sends_see_history (history_in_view seen h) rest
  end.

(** What [ok] accepts of the avatarState written, rendered and captured. *)
Definition avatar_states_are (ok : value -> bool) (l : Live) : Prop :=
  ok (avatarState (current l)) = true
  /\ ok (avatarState (rendered l)) = true
  /\ Forall (fun av => ok av = true) (flights l).

(** ** Trimming *)

Lemma trim_start_split (s : jsstring) :
  exists pre, s = pre ++ trim_start s /\ forallb is_white_space pre = true.
Proof.
  induction s as [|c s IH]; simpl.
  - exists []; split; reflexivity.
  - destruct (is_white_space c) eqn:E.
    + destruct IH as (pre & Hs & Hpre).
      exists (c :: pre); simpl; rewrite E, Hpre; split; [f_equal; exact Hs | reflexivity].
    + exists []; split; reflexivity.
Qed.

Lemma trim_start_head (s : jsstring) c r :
  trim_start s = c :: r -> is_white_space c = false.
Proof.
  induction s as [|x s IH]; simpl; [discriminate|].
  destruct (is_white_space x) eqn:E; [exact IH|].
  intros H; injection H as -> _; exact E.
Qed.

Lemma trim_end_split (s : jsstring) :
  exists post, s = trim_end s ++ post /\ forallb is_white_space post = true.
Proof.
  unfold trim_end.
  destruct (trim_start_split (rev s)) as (pre & Hs & Hpre).
  exists (rev pre); split.
  - rewrite <- rev_app_distr, <- Hs, rev_involutive; reflexivity.
  - rewrite forallb_forall in *; intros x Hx; apply Hpre, in_rev, Hx.
Qed.

Lemma trim_end_last (s : jsstring) r c :
  trim_end s = r ++ [c] -> is_white_space c = false.
Proof.
  unfold trim_end; intros H.
  apply (f_equal (@rev _)) in H.
  rewrite rev_involutive, rev_app_distr in H; simpl in H.
  exact (trim_start_head _ _ _ H).
Qed.

(** [trim] removes a run of white space at each end and nothing else, and
    what is left neither starts nor ends with white space. *)
Lemma trim_spec (s : jsstring) :
  exists pre post,
    s = pre ++ trim s ++ post
    /\ forallb is_white_space pre = true
    /\ forallb is_white_space post = true
    /\ (forall c r, trim s = c :: r -> is_white_space c = false)
    /\ (forall r c, trim s = r ++ [c] -> is_white_space c = false).
Proof.
  destruct (trim_start_split s) as (pre & Hs & Hpre).
  destruct (trim_end_split (trim_start s)) as (post & Ht & Hpost).
  exists pre, post; unfold trim; repeat split; auto.
  - rewrite <- Ht; exact Hs.
  - intros c r H. rewrite H in Ht. simpl in Ht.
    exact (trim_start_head _ _ _ Ht).
  - intros r c; apply trim_end_last.
Qed.

(** ** The [try] block, case by case *)

Lemma get_prop_defined (v : value) (name : jsstring) (st : AppState) :
  nullish v = false -> get_prop v name st = (st, Normal (member v name)).
Proof. unfold get_prop; intros ->; reflexivity. Qed.

Lemma truthy_not_nullish (v : value) : to_boolean v = true -> nullish v = false.
Proof. destruct v; simpl; congruence. Qed.

Lemma try_block_rejects (av : value) (err : jsstring) (st : AppState) :
  try_block av (Rejects err) st = (st, Throw err).
Proof. reflexivity. Qed.

Lemma try_block_nullish (av data : value) (st : AppState) :
  nullish data = true ->
  try_block av (Resolves data) st = (st, Throw (type_error data (lit "session_id"))).
Proof.
  intros H; unfold try_block, bind, await, ret, get_prop; rewrite H; reflexivity.
Qed.

Lemma try_block_succeeds (av data : value) (st : AppState) :
  nullish data = false ->
  try_block av (Resolves data) st = (response_applied av data st, Normal tt).
Proof.
  intros H.
  unfold try_block, response_applied, js_and, bind, await, ret, update.
  repeat rewrite (get_prop_defined data _ _ H).
  destruct (to_boolean (member data (lit "debug"))) eqn:Ed.
  - pose proof (truthy_not_nullish _ Ed) as Hd.
    repeat rewrite (get_prop_defined data _ _ H).
    repeat rewrite (get_prop_defined _ _ _ Hd).
    destruct (to_boolean (member (member data (lit "debug")) (lit "affect_state")));
      [ repeat rewrite (get_prop_defined data _ _ H);
        repeat rewrite (get_prop_defined _ _ _ Hd) | ];
      reflexivity.
  - rewrite Ed; reflexivity.
Qed.

(** Whatever makes the [try] block throw, it throws before it has written
    anything. *)
Lemma try_block_throws_early (av : value) (outcome : FetchOutcome)
    (st : AppState) (err : jsstring) :
  snd (try_block av outcome st) = Throw err ->
  fst (try_block av outcome st) = st /\ succeeds outcome = false.
Proof.
  destruct outcome as [e | data].
  - intros _; split; reflexivity.
  - simpl; destruct (nullish data) eqn:H.
    + rewrite (try_block_nullish _ _ _ H); intros _; split; reflexivity.
    + rewrite (try_block_succeeds _ _ _ H); discriminate.
Qed.

(** The error a settled request ends in, if any. *)
Lemma try_block_completion (av : value) (outcome : FetchOutcome) (st : AppState) :
  snd (try_block av outcome st)
  = match outcome with
    | Rejects err => Throw err
    | Resolves data =>
        if nullish data then Throw (type_error data (lit "session_id"))
        else Normal tt
    end.
Proof.
  destruct outcome as [e | data]; [reflexivity|].
  destruct (nullish data) eqn:H.
  - rewrite (try_block_nullish _ _ _ H); reflexivity.
  - rewrite (try_block_succeeds _ _ _ H); reflexivity.
Qed.

Lemma settle_success (av data : value) (st : AppState) :
  nullish data = false ->
  handleSend_settle av (Resolves data) st = response_applied av data st.
Proof.
  intros H; unfold handleSend_settle, try_catch.
  rewrite (try_block_succeeds _ _ _ H); reflexivity.
Qed.

Lemma settle_failure (av : value) (outcome : FetchOutcome) (st : AppState)
    (err : jsstring) :
  snd (try_block av outcome st) = Throw err ->
  handleSend_settle av outcome st
  = setMessages (messages st ++ [error_message err]) st.
Proof.
  intros H; destruct (try_block_throws_early _ _ _ _ H) as [Hst _].
  unfold handleSend_settle, try_catch.
  destruct (try_block av outcome st) as [st' c]; simpl in *; subst.
  reflexivity.
Qed.

Lemma begin_blank (st : AppState) :
  trim (input st) = [] -> handleSend_begin st = None.
Proof. unfold handleSend_begin; intros ->; reflexivity. Qed.

Lemma begin_text (st : AppState) :
  trim (input st) <> [] ->
  handleSend_begin st
  = Some (setInput [] (setMessages (messages st ++ [user_message_of (trim (input st))]) st),
          {| Body.session_id := sessionId st;
             Body.user_message := trim (input st);
             Body.affect := affect st;
             Body.avatar_state := avatarState st |}).
Proof.
  unfold handleSend_begin; destruct (trim (input st)); [congruence | reflexivity].
Qed.

Lemma to_string_to_primitive (v : value) :
  to_string (to_primitive v) = to_string v.
Proof. destruct v; reflexivity. Qed.

(** ** What a call does to each piece of state *)

Lemma handleSend_unfold (st : AppState) (outcome : FetchOutcome) :
  handleSend st outcome
  = if to_boolean (VStr (trim (input st)))
    then
      let st1 := setInput [] (setMessages (messages st ++ [user_message_of (trim (input st))]) st) in
      (match outcome with
       | Rejects err => setMessages (messages st1 ++ [error_message err]) st1
       | Resolves data =>
           if nullish data
           then setMessages
                  (messages st1 ++ [error_message (type_error data (lit "session_id"))]) st1
           else response_applied (avatarState st) data st1
       end,
       Some {| Body.session_id := sessionId st;
               Body.user_message := trim (input st);
               Body.affect := affect st;
               Body.avatar_state := avatarState st |})
    else (st, None).
Proof.
  unfold handleSend.
  destruct (trim (input st)) as [|c r] eqn:E.
  - rewrite (begin_blank st E); reflexivity.
  - assert (Ht : trim (input st) <> []) by (rewrite E; discriminate).
    rewrite (begin_text st Ht), E; cbn [to_boolean].
    f_equal.
    pose proof (try_block_completion (avatarState st) outcome
      (setInput [] (setMessages (messages st ++ [user_message_of (c :: r)]) st)))
      as Hc.
    destruct outcome as [e | data]; [| destruct (nullish data) eqn:Hn].
    + exact (settle_failure _ _ _ _ Hc).
    + exact (settle_failure _ _ _ _ Hc).
    + exact (settle_success _ _ _ Hn).
Qed.

Ltac handleSend_cases st outcome :=
  rewrite (handleSend_unfold st outcome); unfold completes;
  destruct (to_boolean (VStr (trim (input st)))); cbn [andb fst snd];
  [ destruct outcome as [? | ?data];
    [ | cbn [succeeds offered]; destruct (nullish data) eqn:?; cbn [negb] ] | ].

Lemma handleSend_sessionId (st : AppState) (outcome : FetchOutcome) :
  sessionId (fst (handleSend st outcome))
  = if completes st outcome then offered (lit "session_id") outcome
    else sessionId st.
Proof.
  handleSend_cases st outcome; try reflexivity.
  unfold response_applied; destruct (to_boolean _); reflexivity.
Qed.

Lemma handleSend_avatarState (st : AppState) (outcome : FetchOutcome) :
  avatarState (fst (handleSend st outcome))
  = if completes st outcome
    then js_or (offered (lit "avatar_state") outcome) (avatarState st)
    else avatarState st.
Proof.
  handleSend_cases st outcome; try reflexivity.
  unfold response_applied; destruct (to_boolean _); reflexivity.
Qed.

Lemma handleSend_affect (st : AppState) (outcome : FetchOutcome) :
  affect (fst (handleSend st outcome)) = affect st.
Proof.
  handleSend_cases st outcome; try reflexivity.
  unfold response_applied; destruct (to_boolean _); reflexivity.
Qed.

Lemma handleSend_messages (st : AppState) (data : value) :
  completes st (Resolves data) = true ->
  messages (fst (handleSend st (Resolves data)))
  = messages st ++ [ user_message_of (trim (input st));
                     {| role := assistant; content := member data (lit "reply") |} ].
Proof.
  unfold completes; rewrite (handleSend_unfold st (Resolves data)).
  destruct (to_boolean (VStr (trim (input st)))); [| discriminate].
  cbn [andb succeeds fst]; destruct (nullish data); [discriminate | intros _].
  unfold response_applied; destruct (to_boolean _); cbn;
    rewrite <- app_assoc; reflexivity.
Qed.

Lemma handleSend_body (st st' : AppState) (outcome : FetchOutcome) (body : Body.t) :
  handleSend st outcome = (st', Some body) ->
  body = {| Body.session_id := sessionId st;
            Body.user_message := trim (input st);
            Body.affect := affect st;
            Body.avatar_state := avatarState st |}
  /\ trim (input st) <> [].
Proof.
  rewrite (handleSend_unfold st outcome).
  destruct (trim (input st)) eqn:E; cbn [to_boolean]; [discriminate|].
  intros H; injection H as _ <-; split; [reflexivity | discriminate].
Qed.

Lemma handleSend_silent (st st' : AppState) (outcome : FetchOutcome) :
  handleSend st outcome = (st', None) -> st' = st.
Proof.
  rewrite (handleSend_unfold st outcome).
  destruct (to_boolean _); [discriminate | congruence].
Qed.

(** ** What settling does *)

Lemma settle_unfold (av : value) (outcome : FetchOutcome) (st : AppState) :
  handleSend_settle av outcome st
  = match outcome with
    | Rejects err => setMessages (messages st ++ [error_message err]) st
    | Resolves data =>
        if nullish data
        then setMessages
               (messages st ++ [error_message (type_error data (lit "session_id"))]) st
        else response_applied av data st
    end.
Proof.
  pose proof (try_block_completion av outcome st) as Hc.
  destruct outcome as [e | data]; [| destruct (nullish data) eqn:Hn].
  - exact (settle_failure _ _ _ _ Hc).
  - exact (settle_failure _ _ _ _ Hc).
  - exact (settle_success _ _ _ Hn).
Qed.

Lemma settle_history (av : value) (outcome : FetchOutcome) (st : AppState) :
  exists reply,
    messages (handleSend_settle av outcome st)
    = messages st ++ [assistant_message reply].
Proof.
  rewrite settle_unfold.
  destruct outcome as [e | data]; [| destruct (nullish data)];
    try (eexists; reflexivity).
  exists (member data (lit "reply")).
  unfold response_applied; destruct (to_boolean _); reflexivity.
Qed.

Lemma settle_input (av : value) (outcome : FetchOutcome) (st : AppState) :
  input (handleSend_settle av outcome st) = input st.
Proof.
  rewrite settle_unfold.
  destruct outcome as [e | data]; [| destruct (nullish data)]; try reflexivity.
  unfold response_applied; destruct (to_boolean _); reflexivity.
Qed.

Lemma settle_avatarState (av : value) (outcome : FetchOutcome) (st : AppState) :
  avatarState (handleSend_settle av outcome st)
  = if succeeds outcome
    then js_or (offered (lit "avatar_state") outcome) av
    else avatarState st.
Proof.
  rewrite settle_unfold.
  destruct outcome as [e | data]; [reflexivity|].
  cbn [succeeds offered]; destruct (nullish data); [reflexivity|].
  unfold response_applied; destruct (to_boolean _); reflexivity.
Qed.

(** ** Runs *)

Lemma step_send (st : AppState) (ev : Event) (outcome : FetchOutcome) :
  outcome_of ev = Some outcome ->
  step st ev = handleSend st outcome \/ step st ev = (st, None).
Proof.
  destruct ev; cbn; try discriminate; intros H; injection H as ->; auto.
  unfold handleKeyDown; destruct (_ && _); auto.
Qed.

Lemma step_body (st st' : AppState) (ev : Event) (body : Body.t) :
  step st ev = (st', Some body) ->
  Body.session_id body = sessionId st
  /\ Body.user_message body = trim (input st)
  /\ Body.affect body = affect st
  /\ Body.avatar_state body = avatarState st
  /\ trim (input st) <> [].
Proof.
  intros H.
  assert (Hs : exists outcome, handleSend st outcome = (st', Some body)).
  { destruct ev as [t | i | o | k sh o]; cbn in H.
    - discriminate.
    - destruct (nth_error AVATAR_STATES i); discriminate.
    - eauto.
    - unfold handleKeyDown in H; destruct (_ && _); [eauto | discriminate]. }
  destruct Hs as (o & Ho).
  destruct (handleSend_body _ _ _ _ Ho) as (-> & Ht).
  repeat split; auto.
Qed.

Lemma step_silent_sessionId (st st' : AppState) (ev : Event) :
  step st ev = (st', None) -> sessionId st' = sessionId st.
Proof.
  destruct ev as [t | i | o | k sh o]; cbn.
  - intros H; injection H as <-; reflexivity.
  - destruct (nth_error AVATAR_STATES i); intros H; injection H as <-; reflexivity.
  - intros H; rewrite (handleSend_silent _ _ _ H); reflexivity.
  - unfold handleKeyDown; destruct (_ && _); intros H;
      [rewrite (handleSend_silent _ _ _ H) | injection H as <-]; reflexivity.
Qed.

Lemma step_quiet_sessionId (st : AppState) (ev : Event) :
  quiet ev = true -> sessionId (fst (step st ev)) = sessionId st.
Proof.
  unfold quiet; destruct (outcome_of ev) as [o|] eqn:E.
  - intros Hq; destruct (step_send st ev o E) as [-> | ->]; [| reflexivity].
    rewrite handleSend_sessionId; unfold completes.
    apply negb_true_iff in Hq; rewrite Hq, andb_false_r; reflexivity.
  - intros _; destruct ev as [t | i | o | k sh o]; try discriminate; cbn.
    + reflexivity.
    + destruct (nth_error AVATAR_STATES i); reflexivity.
Qed.

Lemma step_affect (st : AppState) (ev : Event) :
  affect (fst (step st ev)) = affect st.
Proof.
  destruct ev as [t | i | o | k sh o]; cbn.
  - reflexivity.
  - destruct (nth_error AVATAR_STATES i); reflexivity.
  - apply handleSend_affect.
  - unfold handleKeyDown; destruct (_ && _); [apply handleSend_affect | reflexivity].
Qed.

Lemma nth_avatar_state (i : nat) (state : jsstring) :
  nth_error AVATAR_STATES i = Some state ->
  in_avatar_states (VStr state) = true /\ nonempty_string (VStr state) = true.
Proof.
  do 5 (destruct i as [|i]; [intros H; injection H as <-; split; reflexivity|]).
  destruct i; discriminate.
Qed.

Lemma step_avatarState (st : AppState) (ev : Event) :
  avatarState (fst (step st ev)) = avatarState st
  \/ (exists i state, ev = ClickAvatar i /\ nth_error AVATAR_STATES i = Some state
                      /\ avatarState (fst (step st ev)) = VStr state)
  \/ (exists outcome, outcome_of ev = Some outcome
                      /\ to_boolean (offered (lit "avatar_state") outcome) = true
                      /\ avatarState (fst (step st ev))
                         = offered (lit "avatar_state") outcome).
Proof.
  assert (Hsend : forall o, outcome_of ev = Some o ->
            avatarState (fst (handleSend st o)) = avatarState st
            \/ to_boolean (offered (lit "avatar_state") o) = true
               /\ avatarState (fst (handleSend st o)) = offered (lit "avatar_state") o).
  { intros o _; rewrite handleSend_avatarState.
    destruct (completes st o); [| auto].
    unfold js_or; destruct (to_boolean (offered _ o)); auto. }
  destruct ev as [t | i | o | k sh o]; cbn.
  - auto.
  - destruct (nth_error AVATAR_STATES i) as [state|] eqn:E; [| auto].
    right; left; exists i, state; auto.
  - destruct (Hsend o eq_refl) as [H | [H1 H2]]; [auto | right; right; eauto].
  - unfold handleKeyDown; destruct (_ && _); [| auto].
    destruct (Hsend o eq_refl) as [H | [H1 H2]]; [auto | right; right; eauto].
Qed.

Lemma run_cons (st : AppState) (ev : Event) (rest : list Event) :
  run st (ev :: rest)
  = (fst (run (fst (step st ev)) rest),
     match snd (step st ev) with
     | Some b => b :: snd (run (fst (step st ev)) rest)
     | None => snd (run (fst (step st ev)) rest)
     end).
Proof.
  cbn [run]; destruct (step st ev) as [st1 sent]; cbn [fst snd].
  destruct (run st1 rest); reflexivity.
Qed.

Lemma run_app (st : AppState) (evs1 evs2 : list Event) :
  run st (evs1 ++ evs2)
  = (fst (run (fst (run st evs1)) evs2),
     snd (run st evs1) ++ snd (run (fst (run st evs1)) evs2)).
Proof.
  revert st; induction evs1 as [|ev evs1 IH]; intros st.
  - cbn; destruct (run st evs2); reflexivity.
  - rewrite <- app_comm_cons, !run_cons, IH; cbn [fst snd].
    destruct (snd (step st ev)); reflexivity.
Qed.

(** An invariant of every step that meets [ok] holds along every run. *)
Lemma run_invariant (P : AppState -> Prop) (ok : Event -> bool) :
  (forall st ev, P st -> ok ev = true -> P (fst (step st ev))) ->
  forall evs st, P st -> forallb ok evs = true -> P (fst (run st evs)).
Proof.
  intros Hstep; induction evs as [|ev evs IH]; intros st HP Hok.
  - exact HP.
  - cbn [forallb] in Hok; apply andb_true_iff in Hok as [H1 H2].
    rewrite run_cons; cbn [fst]; apply IH; auto.
Qed.

(** ** The claims about a single call *)

(** C3: when the trimmed input is empty, [handleSend] returns at once, from
    the Send button as from the Enter key: no request is sent and the state
    as a whole (messages, sessionId, avatarState, affectState, debug, and the
    input itself) is what it was. *)
Theorem C3_blank_input_is_rejected (st : AppState) (outcome : FetchOutcome)
    (key : jsstring) (shiftKey : bool) :
  trim (input st) = [] ->
  handleSend_begin st = None
  /\ handleSend st outcome = (st, None)
  /\ handleKeyDown key shiftKey st outcome = (st, None).
Proof.
  intros H; pose proof (begin_blank st H) as Hb.
  assert (Hs : handleSend st outcome = (st, None))
    by (unfold handleSend; rewrite Hb; reflexivity).
  repeat split; auto.
  unfold handleKeyDown; rewrite Hs; destruct (_ && _); reflexivity.
Qed.

(** C4: when the [try] block of a turn throws (the fetch rejects, the body is
    not JSON, or the response is [null]), sessionId, avatarState, affect,
    affectState and debug are what they were before the turn, and from the
    state in which the request was issued (the user's message appended, the
    input cleared) the only change is one appended assistant error message. *)
Theorem C4_failed_turn_updates_nothing (st st1 : AppState) (body : Body.t)
    (outcome : FetchOutcome) (err : jsstring) :
  handleSend_begin st = Some (st1, body) ->
  snd (try_block (avatarState st) outcome st1) = Throw err ->
  let st2 := fst (handleSend st outcome) in
  sessionId st2 = sessionId st
  /\ avatarState st2 = avatarState st
  /\ affect st2 = affect st
  /\ affectState st2 = affectState st
  /\ debug st2 = debug st
  /\ st2 = setMessages (messages st1 ++ [error_message err]) st1
  /\ messages st2
     = messages st ++ [user_message_of (trim (input st)); error_message err].
Proof.
  intros Hb Hthrow.
  unfold handleSend; rewrite Hb; cbn [fst].
  rewrite (settle_failure _ _ _ _ Hthrow).
  destruct (list_eq_dec N.eq_dec (trim (input st)) []) as [E | E].
  - rewrite (begin_blank st E) in Hb; discriminate.
  - rewrite (begin_text st E) in Hb; injection Hb as <- _.
    cbn; rewrite <- app_assoc; repeat split; reflexivity.
Qed.

(** C10: when the trimmed input is not empty, the message appended to the
    history has the role [user] and the trimmed input as its content, the
    [user_message] of the request is the trimmed input too, and the trimmed
    input is the input without the white space at its two ends; the input
    field is already empty in the state in which the request is issued, and
    still is when the turn has settled. *)
Theorem C10_trimmed_text_is_sent (st : AppState) (outcome : FetchOutcome) :
  trim (input st) <> [] ->
  exists st1 body,
    handleSend_begin st = Some (st1, body)
    /\ snd (handleSend st outcome) = Some body
    /\ Body.user_message body = trim (input st)
    /\ messages st1
       = messages st ++ [ {| role := user; content := VStr (trim (input st)) |} ]
    /\ input st1 = []
    /\ nth_error (messages (fst (handleSend st outcome))) (List.length (messages st))
       = Some {| role := user; content := VStr (trim (input st)) |}
    /\ input (fst (handleSend st outcome)) = []
    /\ exists pre post,
         input st = pre ++ trim (input st) ++ post
         /\ forallb is_white_space pre = true
         /\ forallb is_white_space post = true
         /\ (forall c r, trim (input st) = c :: r -> is_white_space c = false)
         /\ (forall r c, trim (input st) = r ++ [c] -> is_white_space c = false).
Proof.
  intros H.
  eexists _, _; split; [exact (begin_text st H)|].
  unfold handleSend; rewrite (begin_text st H); cbn [fst snd].
  repeat split; try reflexivity; try exact (trim_spec (input st)).
  - pose proof (try_block_completion (avatarState st) outcome
      (setInput [] (setMessages (messages st ++ [user_message_of (trim (input st))]) st)))
      as Hc.
    destruct outcome as [e | data]; [| destruct (nullish data) eqn:Hn].
    + rewrite (settle_failure _ _ _ _ Hc); cbn.
      rewrite <- app_assoc, nth_error_app2, Nat.sub_diag by lia; reflexivity.
    + rewrite (settle_failure _ _ _ _ Hc); cbn.
      rewrite <- app_assoc, nth_error_app2, Nat.sub_diag by lia; reflexivity.
    + rewrite (settle_success _ _ _ Hn); unfold response_applied.
      destruct (to_boolean _); cbn;
        rewrite <- app_assoc, nth_error_app2, Nat.sub_diag by lia; reflexivity.
  - pose proof (try_block_completion (avatarState st) outcome
      (setInput [] (setMessages (messages st ++ [user_message_of (trim (input st))]) st)))
      as Hc.
    destruct outcome as [e | data]; [| destruct (nullish data) eqn:Hn].
    + rewrite (settle_failure _ _ _ _ Hc); reflexivity.
    + rewrite (settle_failure _ _ _ _ Hc); reflexivity.
    + rewrite (settle_success _ _ _ Hn); unfold response_applied.
      destruct (to_boolean _); reflexivity.
Qed.

(** C5, as the frontend has it: a fresh component holds the neutral affect
    estimate ["emotionally neutral"], the avatar state ["welcoming"], which is
    a member of [AVATAR_STATES], no session id, and a history that holds the
    assistant's greeting and nothing from the user. *)
Theorem C5_fresh_state :
  affectState initial_state = VStr (lit "emotionally neutral")
  /\ avatarState initial_state = VStr (lit "welcoming")
  /\ in_avatar_states (avatarState initial_state) = true
  /\ sessionId initial_state = VNull
  /\ messages initial_state
     = [ {| role := assistant;
            content := VStr (lit "Hello, I'm Dr. Lane. What would you like to talk about today?") |} ]
  /\ filter (fun m => match role m with user => true | assistant => false end)
       (messages initial_state) = [].
Proof. repeat split; reflexivity. Qed.

(** C8: the image source is ["/avatars/" + avatarState + ".png"] for every
    value of avatarState, with [+] the string concatenation of the language;
    for a string [s] that is ["/avatars/"], [s] and [".png"] in a row. *)
Theorem C8_avatar_src (st : AppState) :
  currentAvatarSrc st
  = plus_string (plus_string (lit "/avatars/") (avatarState st)) (VStr (lit ".png"))
  /\ forall s : jsstring,
       currentAvatarSrc (setAvatarState (VStr s) st)
       = lit "/avatars/" ++ s ++ lit ".png".
Proof.
  split; [| reflexivity].
  unfold currentAvatarSrc, plus_string.
  rewrite to_string_to_primitive, <- app_assoc; reflexivity.
Qed.

(** ** The claims about runs *)

Lemma step_keeps_membership (ok : value -> bool) :
  (forall i state, nth_error AVATAR_STATES i = Some state -> ok (VStr state) = true) ->
  forall st ev,
    ok (avatarState st) = true -> avatar_offers ok ev = true ->
    ok (avatarState (fst (step st ev))) = true.
Proof.
  intros Hbuttons st ev Hst Hev.
  destruct (step_avatarState st ev)
    as [-> | [(i & state & _ & Hi & ->) | (o & Ho & Ht & ->)]].
  - exact Hst.
  - exact (Hbuttons i state Hi).
  - unfold avatar_offers in Hev; rewrite Ho, Ht in Hev; exact Hev.
Qed.

(** C1, as the frontend has it: a turn that completes leaves in avatarState
    the [avatar_state] of the response when that is truthy and the previous
    avatarState otherwise, and any other call leaves it alone.  So along a
    run avatarState stays a member of [AVATAR_STATES] as long as every
    response carries an [avatar_state] that is missing, falsy or itself a
    member. *)
Theorem C1_avatar_state_follows_response :
  (forall st outcome,
     avatarState (fst (handleSend st outcome))
     = if completes st outcome
       then js_or (offered (lit "avatar_state") outcome) (avatarState st)
       else avatarState st)
  /\ (forall st evs,
        in_avatar_states (avatarState st) = true ->
        forallb (avatar_offers in_avatar_states) evs = true ->
        in_avatar_states (avatarState (fst (run st evs))) = true).
Proof.
  split; [exact handleSend_avatarState|].
  intros st evs Hst Hevs.
  apply (run_invariant (fun s => in_avatar_states (avatarState s) = true)
           (avatar_offers in_avatar_states)); auto.
  apply step_keeps_membership.
  intros i state Hi; exact (proj1 (nth_avatar_state i state Hi)).
Qed.

Lemma turn_run (st : AppState) (t : Turn) (rest : list Event) :
  fst (run st (turn_events t ++ rest))
  = fst (run (fst (handleSend (setInput (fst t) st) (Resolves (snd t)))) rest).
Proof. unfold turn_events; cbn [app]; rewrite !run_cons; reflexivity. Qed.

(** C2, as the frontend has it: [N] successful turns append to the history,
    in order, one user message and one assistant reply per turn, so that its
    length grows by [2 * N]; on a fresh component, whose history starts with
    the greeting, the length afterwards is [2 * N + 1]. *)
Theorem C2_history_grows_by_two_per_turn (turns : list Turn) :
  forallb successful turns = true ->
  (forall st,
     messages (fst (run st (flat_map turn_events turns)))
     = messages st ++ flat_map turn_messages turns)
  /\ (forall st,
        List.length (messages (fst (run st (flat_map turn_events turns))))
        = List.length (messages st) + 2 * List.length turns)
  /\ List.length (messages (fst (run initial_state (flat_map turn_events turns))))
     = 2 * List.length turns + 1.
Proof.
  intros Hok.
  assert (Hmsgs : forall st,
            messages (fst (run st (flat_map turn_events turns)))
            = messages st ++ flat_map turn_messages turns).
  { induction turns as [|t turns IH]; intros st.
    - cbn; rewrite app_nil_r; reflexivity.
    - cbn [forallb] in Hok; apply andb_true_iff in Hok as [Ht Hrest].
      cbn [flat_map]; rewrite turn_run, (IH Hrest), handleSend_messages.
      + rewrite <- app_assoc; reflexivity.
      + exact Ht. }
  assert (Hlen : forall st,
            List.length (messages (fst (run st (flat_map turn_events turns))))
            = List.length (messages st) + 2 * List.length turns).
  { intros st; rewrite Hmsgs, length_app; f_equal.
    clear; induction turns as [|t turns IH]; [reflexivity|].
    cbn [flat_map List.length]; rewrite length_app, IH; cbn; lia. }
  repeat split; auto.
  rewrite Hlen; cbn; lia.
Qed.

Lemma quiet_run (v : value) (evs : list Event) :
  forallb quiet evs = true ->
  forall st, sessionId st = v ->
    sessionId (fst (run st evs)) = v
    /\ forall body, In body (snd (run st evs)) -> Body.session_id body = v.
Proof.
  induction evs as [|ev evs IH]; intros Hq st Hst.
  - split; [exact Hst | intros body []].
  - cbn [forallb] in Hq; apply andb_true_iff in Hq as [Hev Hrest].
    assert (H1 : sessionId (fst (step st ev)) = v)
      by (rewrite step_quiet_sessionId; auto).
    destruct (IH Hrest _ H1) as [IHs IHb].
    rewrite run_cons; cbn [fst snd]; split; [exact IHs|].
    intros body Hin.
    destruct (step st ev) as [st1 [b|]] eqn:E; cbn [fst snd] in *; [| auto].
    destruct Hin as [<- | Hin]; [| auto].
    rewrite (proj1 (step_body _ _ _ _ E)); exact Hst.
Qed.

(** C6, as the frontend has it: the first request a fresh component sends
    carries [session_id = null]; and once a turn has completed with a response
    [data], every later request, up to and including the one of the next turn
    that completes, carries [data.session_id], whatever that is.  The id is
    overwritten by every response that is parsed and is not [null], so the id
    a turn returned is carried forward until the next such response only. *)
Theorem C6_session_id_is_carried_forward :
  sessionId initial_state = VNull
  /\ (forall evs body,
        hd_error (snd (run initial_state evs)) = Some body ->
        Body.session_id body = VNull)
  /\ (forall st data evs ev body,
        completes st (Resolves data) = true ->
        forallb quiet evs = true ->
        In body (snd (run (fst (handleSend st (Resolves data))) (evs ++ [ev]))) ->
        Body.session_id body = member data (lit "session_id")).
Proof.
  split; [reflexivity | split].
  - intros evs.
    assert (H : forall st, sessionId st = VNull ->
              forall body, hd_error (snd (run st evs)) = Some body ->
                           Body.session_id body = VNull).
    { induction evs as [|ev evs IH]; intros st Hst body; [discriminate|].
      rewrite run_cons; cbn [snd].
      destruct (step st ev) as [st1 [b|]] eqn:E; cbn [fst snd].
      - intros Hb; injection Hb as <-.
        rewrite (proj1 (step_body _ _ _ _ E)); exact Hst.
      - apply IH; rewrite (step_silent_sessionId _ _ _ E); exact Hst. }
    exact (H initial_state eq_refl).
  - intros st data evs ev body Hc Hq.
    set (st1 := fst (handleSend st (Resolves data))).
    assert (Hs : sessionId st1 = member data (lit "session_id"))
      by (unfold st1; rewrite handleSend_sessionId, Hc; reflexivity).
    destruct (quiet_run _ evs Hq st1 Hs) as [Hs2 Hb].
    rewrite run_app; cbn [snd]; intros Hin.
    apply in_app_or in Hin as [Hin | Hin]; [auto|].
    rewrite run_cons in Hin; cbn [snd run] in Hin.
    destruct (step (fst (run st1 evs)) ev) as [st3 [b|]] eqn:E;
      cbn [fst snd] in Hin; [| destruct Hin].
    destruct Hin as [<- | []].
    rewrite (proj1 (step_body _ _ _ _ E)); exact Hs2.
Qed.

(** C7, as the frontend has it: a request is sent exactly when the trimmed
    input is not empty, and its body holds the current session id ([null]
    before the first response), the trimmed and hence non-empty user message,
    the value of the state variable [affect], and the current avatarState.
    No handler writes [affect]: it is ["a little tense but open"] in every
    request, whatever affect estimate affectState holds. *)
Theorem C7_request_body :
  (forall st outcome,
     snd (handleSend st outcome)
     = if to_boolean (VStr (trim (input st)))
       then Some {| Body.session_id := sessionId st;
                    Body.user_message := trim (input st);
                    Body.affect := affect st;
                    Body.avatar_state := avatarState st |}
       else None)
  /\ (forall st outcome body,
        snd (handleSend st outcome) = Some body -> Body.user_message body <> [])
  /\ (forall evs body,
        In body (snd (run initial_state evs)) ->
        Body.affect body = VStr (lit "a little tense but open")).
Proof.
  split; [| split].
  - intros st outcome; rewrite handleSend_unfold.
    destruct (to_boolean _); reflexivity.
  - intros st outcome body H.
    destruct (handleSend st outcome) as [st' sent] eqn:E; cbn in H; subst sent.
    destruct (handleSend_body _ _ _ _ E) as (-> & Ht); exact Ht.
  - intros evs.
    assert (H : forall st body, In body (snd (run st evs)) ->
                                Body.affect body = affect st).
    { induction evs as [|ev evs IH]; intros st body; [intros []|].
      rewrite run_cons; cbn [snd].
      assert (Hrest : In body (snd (run (fst (step st ev)) evs)) ->
                      Body.affect body = affect st)
        by (intros Hin; rewrite (IH _ _ Hin); apply step_affect).
      destruct (step st ev) as [st1 [b|]] eqn:E; cbn [fst snd] in *; [| auto].
      intros [<- | Hin]; [| auto].
      exact (proj1 (proj2 (proj2 (step_body _ _ _ _ E)))). }
    intros body Hin; exact (H initial_state body Hin).
Qed.

Lemma string_truthy_nonempty (v : value) :
  is_string v = true -> to_boolean v = true -> nonempty_string v = true.
Proof. destruct v as [| | | |[|c r]| |]; cbn; congruence. Qed.

(** C9, as the frontend has it: avatarState starts as ["welcoming"]; an
    avatar button sets a member of [AVATAR_STATES]; a falsy (missing or empty)
    [avatar_state] of a response is never written.  What is written when the
    response completes the turn is then the avatarState the call of
    [handleSend] captured: a turn taken in one piece leaves avatarState as it
    was, and whatever is in avatarState when the response arrives, a button
    clicked in the meantime for one, is replaced by the captured value.  A
    turn that fails writes nothing.  So avatarState is always truthy, and it
    is a non-empty string as long as every [avatar_state] the backend sends is
    a string or falsy. *)
Theorem C9_avatar_state_is_kept :
  avatarState initial_state = VStr (lit "welcoming")
  /\ (forall st i,
        avatarState (fst (step st (ClickAvatar i))) = avatarState st
        \/ in_avatar_states (avatarState (fst (step st (ClickAvatar i)))) = true)
  /\ (forall st outcome,
        to_boolean (offered (lit "avatar_state") outcome) = false ->
        avatarState (fst (handleSend st outcome)) = avatarState st)
  /\ (forall captured outcome st,
        avatarState (handleSend_settle captured outcome st)
        = if succeeds outcome
          then if to_boolean (offered (lit "avatar_state") outcome)
               then offered (lit "avatar_state") outcome
               else captured
          else avatarState st)
  /\ (forall evs, to_boolean (avatarState (fst (run initial_state evs))) = true)
  /\ (forall evs,
        forallb (avatar_offers is_string) evs = true ->
        nonempty_string (avatarState (fst (run initial_state evs))) = true).
Proof.
  split; [reflexivity | split; [| split; [| split; [| split]]]].
  - intros st i; cbn.
    destruct (nth_error AVATAR_STATES i) as [state|] eqn:E; [| auto].
    right; exact (proj1 (nth_avatar_state i state E)).
  - intros st outcome H; rewrite handleSend_avatarState.
    unfold js_or; rewrite H; destruct (completes st outcome); reflexivity.
  - intros captured outcome st; exact (settle_avatarState captured outcome st).
  - intros evs.
    apply (run_invariant (fun s => to_boolean (avatarState s) = true)
             (fun _ => true)); [| reflexivity | apply forallb_forall; auto].
    intros st ev Hst _.
    destruct (step_avatarState st ev)
      as [-> | [(i & state & _ & Hi & ->) | (o & _ & Ht & ->)]]; auto.
    destruct (nth_avatar_state i state Hi) as [_ H].
    destruct state; [discriminate | reflexivity].
  - intros evs Hevs.
    apply (run_invariant (fun s => nonempty_string (avatarState s) = true)
             (avatar_offers is_string)); [| reflexivity | exact Hevs].
    intros st ev Hst Hev.
    destruct (step_avatarState st ev)
      as [-> | [(i & state & _ & Hi & ->) | (o & Ho & Ht & ->)]]; auto.
    + exact (proj2 (nth_avatar_state i state Hi)).
    + unfold avatar_offers in Hev; rewrite Ho, Ht in Hev; cbn in Hev.
      apply string_truthy_nonempty; auto.
Qed.

(** ** Beyond the claims: sending *)

Lemma str_eqb_eq (a b : jsstring) : str_eqb a b = true <-> a = b.
Proof.
  revert b; induction a as [|x a IH]; intros [|y b]; cbn; split;
    try congruence; try discriminate.
  - intros H; apply andb_true_iff in H as [Hx Hr].
    apply N.eqb_eq in Hx; apply IH in Hr; congruence.
  - intros H; injection H as -> ->.
    rewrite N.eqb_refl; apply (IH b); reflexivity.
Qed.

Lemma trim_start_blank (s : jsstring) :
  trim_start s = [] <-> forallb is_white_space s = true.
Proof.
  induction s as [|c s IH]; cbn [trim_start forallb]; [tauto|].
  destruct (is_white_space c); cbn [andb]; [exact IH|].
  split; discriminate.
Qed.

Lemma trim_blank (s : jsstring) :
  trim s = [] <-> forallb is_white_space s = true.
Proof.
  rewrite <- trim_start_blank; unfold trim; split.
  - intros H.
    destruct (trim_end_split (trim_start s)) as (post & Hs & Hpost).
    rewrite H in Hs; cbn in Hs.
    destruct (trim_start s) as [|c r] eqn:E; [reflexivity|].
    pose proof (trim_start_head _ _ _ E) as Hc.
    subst post; cbn [forallb] in Hpost; rewrite Hc in Hpost; discriminate.
  - intros ->; reflexivity.
Qed.

Lemma trim_fixed (s : jsstring) :
  (forall c r, s = c :: r -> is_white_space c = false) ->
  (forall r c, s = r ++ [c] -> is_white_space c = false) ->
  trim s = s.
Proof.
  intros Hhead Hlast.
  assert (Hs : trim_start s = s).
  { destruct s as [|c r]; [reflexivity|].
    cbn [trim_start]; rewrite (Hhead c r eq_refl); reflexivity. }
  unfold trim; rewrite Hs; unfold trim_end.
  destruct (rev s) as [|c r] eqn:E.
  - apply (f_equal (@rev _)) in E; rewrite rev_involutive in E; exact (eq_sym E).
  - assert (Hc : is_white_space c = false).
    { apply (Hlast (rev r) c).
      apply (f_equal (@rev _)) in E; rewrite rev_involutive in E; exact E. }
    cbn [trim_start]; rewrite Hc, <- E; apply rev_involutive.
Qed.

Lemma text_truthy (s : jsstring) : to_boolean (VStr s) = true <-> s <> [].
Proof. destruct s; cbn; split; congruence. Qed.

Lemma handleSend_input (st : AppState) (outcome : FetchOutcome) :
  input (fst (handleSend st outcome))
  = if to_boolean (VStr (trim (input st))) then [] else input st.
Proof.
  handleSend_cases st outcome; try reflexivity.
  unfold response_applied; destruct (to_boolean _); reflexivity.
Qed.

(** A request goes out exactly when the input holds something other than
    white space. *)
Theorem request_iff_not_blank (st : AppState) (outcome : FetchOutcome) :
  snd (handleSend st outcome) = None
  <-> forallb is_white_space (input st) = true.
Proof.
  rewrite <- trim_blank, handleSend_unfold.
  destruct (trim (input st)); cbn; split; congruence.
Qed.

(** The body that goes out and the step that sends it. *)
Lemma run_sent (st : AppState) (evs : list Event) (body : Body.t) :
  In body (snd (run st evs)) ->
  exists before ev after,
    evs = before ++ ev :: after
    /\ snd (step (fst (run st before)) ev) = Some body.
Proof.
  revert st; induction evs as [|ev evs IH]; intros st; [intros []|].
  rewrite run_cons; cbn [snd].
  assert (Hlater : In body (snd (run (fst (step st ev)) evs)) ->
            exists before ev0 after,
              ev :: evs = before ++ ev0 :: after
              /\ snd (step (fst (run st before)) ev0) = Some body).
  { intros Hin; destruct (IH _ Hin) as (before & ev0 & after & -> & Hs).
    exists (ev :: before), ev0, after; split; [reflexivity|].
    rewrite run_cons; exact Hs. }
  destruct (snd (step st ev)) as [b|] eqn:E; [| exact Hlater].
  intros [<- | Hin]; [| exact (Hlater Hin)].
  exists [], ev, evs; split; [reflexivity | exact E].
Qed.

Lemma step_sent (st : AppState) (ev : Event) (body : Body.t) :
  snd (step st ev) = Some body ->
  body = {| Body.session_id := sessionId st;
            Body.user_message := trim (input st);
            Body.affect := affect st;
            Body.avatar_state := avatarState st |}
  /\ trim (input st) <> [].
Proof.
  intros H; destruct (step st ev) as [st' sent] eqn:E; cbn in H; subst sent.
  destruct (step_body _ _ _ _ E) as (H1 & H2 & H3 & H4 & H5).
  split; [| exact H5].
  destruct body; cbn in *; congruence.
Qed.

(** Whatever is typed and however it is sent, the [user_message] of a request
    is never empty and neither starts nor ends with white space: trimming it
    again gives it back. *)
Theorem sent_text_is_trimmed (st : AppState) (evs : list Event) (body : Body.t) :
  In body (snd (run st evs)) ->
  Body.user_message body <> []
  /\ (forall c r, Body.user_message body = c :: r -> is_white_space c = false)
  /\ (forall r c, Body.user_message body = r ++ [c] -> is_white_space c = false)
  /\ trim (Body.user_message body) = Body.user_message body.
Proof.
  intros Hin.
  destruct (run_sent _ _ _ Hin) as (before & ev & after & _ & Hs).
  destruct (step_sent _ _ _ Hs) as (-> & Ht); cbn.
  destruct (trim_spec (input (fst (run st before))))
    as (pre & post & _ & _ & _ & Hhead & Hlast).
  repeat split; auto.
  apply trim_fixed; auto.
Qed.

(** Sending twice in a row sends once: after any call of [handleSend] a
    second call, without typing in between, returns at once. *)
Theorem second_send_does_nothing (st : AppState) (first second : FetchOutcome) :
  handleSend (fst (handleSend st first)) second
  = (fst (handleSend st first), None).
Proof.
  assert (H : trim (input (fst (handleSend st first))) = []).
  { rewrite handleSend_input.
    destruct (to_boolean (VStr (trim (input st)))) eqn:E; [reflexivity|].
    destruct (trim (input st)); [reflexivity | discriminate]. }
  unfold handleSend at 1; rewrite (begin_blank _ H); reflexivity.
Qed.

(** A key press sends exactly when the key is Enter, Shift is not held and
    the input is not blank; any other key press leaves the state as it is. *)
Theorem key_press_sends_on_enter (key : jsstring) (shiftKey : bool)
    (st : AppState) (outcome : FetchOutcome) :
  (snd (handleKeyDown key shiftKey st outcome) <> None
   <-> key = lit "Enter" /\ shiftKey = false /\ trim (input st) <> [])
  /\ (snd (handleKeyDown key shiftKey st outcome) = None ->
      fst (handleKeyDown key shiftKey st outcome) = st).
Proof.
  unfold handleKeyDown.
  destruct (str_eqb key (lit "Enter")) eqn:Ek.
  - apply str_eqb_eq in Ek; subst key.
    destruct shiftKey; cbn [andb negb fst snd].
    + split; [split; [congruence | intros (_ & H & _); discriminate] | reflexivity].
    + rewrite handleSend_unfold.
      destruct (trim (input st)); cbn; split; try split; try congruence;
        try tauto.
      intros _; repeat split; discriminate.
  - cbn [andb fst snd]; split; [split; [congruence|] | reflexivity].
    intros (-> & _); discriminate.
Qed.

(** ** Beyond the claims: what a run leaves in the state *)

Lemma handleSend_history (st : AppState) (outcome : FetchOutcome) :
  match snd (handleSend st outcome) with
  | Some body =>
      exists reply,
        messages (fst (handleSend st outcome))
        = messages st
            ++ [user_message_of (Body.user_message body); assistant_message reply]
  | None => messages (fst (handleSend st outcome)) = messages st
  end.
Proof.
  handleSend_cases st outcome; try reflexivity.
  - eexists; cbn; rewrite <- app_assoc; reflexivity.
  - eexists; cbn; rewrite <- app_assoc; reflexivity.
  - exists (member data (lit "reply")).
    unfold response_applied; destruct (to_boolean _); cbn;
      rewrite <- app_assoc; reflexivity.
Qed.

Lemma step_history (st : AppState) (ev : Event) :
  match snd (step st ev) with
  | Some body =>
      exists reply,
        messages (fst (step st ev))
        = messages st
            ++ [user_message_of (Body.user_message body); assistant_message reply]
  | None => messages (fst (step st ev)) = messages st
  end.
Proof.
  destruct ev as [t | i | o | k sh o]; cbn [step].
  - reflexivity.
  - destruct (nth_error AVATAR_STATES i); reflexivity.
  - apply handleSend_history.
  - unfold handleKeyDown; destruct (_ && _);
      [apply handleSend_history | reflexivity].
Qed.

(** When the turns are taken one after another, each request settling and
    the component rendering before the next event, the history after a run is
    the history before it followed, for each request sent and in the order
    sent, by a user message whose content is the text of that request and one
    assistant message (the reply or the error).  So it grows by two per
    request whatever the outcomes, its roles alternate, and on a fresh
    component it has [2 * requests + 1] messages. *)
Theorem history_pairs_with_requests (st : AppState) (evs : list Event) :
  (exists replies,
     List.length replies = List.length (snd (run st evs))
     /\ messages (fst (run st evs))
        = messages st
            ++ flat_map (fun p => [ {| role := user;
                                       content := VStr (Body.user_message (fst p)) |};
                                    {| role := assistant; content := snd p |} ])
                 (combine (snd (run st evs)) replies))
  /\ map role (messages (fst (run st evs)))
     = map role (messages st)
         ++ flat_map (fun _ => [user; assistant]) (snd (run st evs))
  /\ List.length (messages (fst (run initial_state evs)))
     = 2 * List.length (snd (run initial_state evs)) + 1.
Proof.
  assert (Hshape : forall st0,
            exists replies,
              List.length replies = List.length (snd (run st0 evs))
              /\ messages (fst (run st0 evs))
                 = messages st0
                     ++ flat_map (fun p => [ user_message_of (Body.user_message (fst p));
                                             assistant_message (snd p) ])
                          (combine (snd (run st0 evs)) replies)).
  { induction evs as [|ev evs IH]; intros st0.
    - exists []; cbn; rewrite app_nil_r; split; reflexivity.
    - rewrite run_cons; cbn [fst snd].
      destruct (IH (fst (step st0 ev))) as (replies & Hlen & Hmsgs).
      pose proof (step_history st0 ev) as Hstep.
      destruct (snd (step st0 ev)) as [body|].
      + destruct Hstep as (reply & Hstep).
        exists (reply :: replies); cbn [List.length combine flat_map fst snd].
        rewrite Hlen, Hmsgs, Hstep, <- app_assoc; split; reflexivity.
      + exists replies; rewrite Hmsgs, Hstep; split; [exact Hlen | reflexivity]. }
  assert (Hroles : forall st0,
            map role (messages (fst (run st0 evs)))
            = map role (messages st0)
                ++ flat_map (fun _ => [user; assistant]) (snd (run st0 evs))).
  { intros st0; destruct (Hshape st0) as (replies & Hlen & ->).
    rewrite map_app; f_equal.
    revert replies Hlen; generalize (snd (run st0 evs)) as bodies.
    induction bodies as [|b bodies IH]; intros [|r replies] Hlen;
      try discriminate; [reflexivity|].
    cbn; do 2 f_equal; apply IH; cbn in Hlen; congruence. }
  split; [exact (Hshape st) | split; [exact (Hroles st) |]].
  rewrite <- (length_map role), Hroles, length_app.
  generalize (snd (run initial_state evs)) as bodies.
  induction bodies as [|b bodies IH]; [reflexivity|].
  cbn [flat_map List.length app] in *; lia.
Qed.

Lemma handleSend_debug (st : AppState) (outcome : FetchOutcome) :
  debug (fst (handleSend st outcome))
  = if completes st outcome
    then js_or (offered (lit "debug") outcome) (VObj [])
    else debug st.
Proof.
  handleSend_cases st outcome; try reflexivity.
  unfold response_applied; destruct (to_boolean _); reflexivity.
Qed.

Lemma js_and_truthy (a b : value) :
  to_boolean (js_and a b) = to_boolean a && to_boolean b.
Proof. unfold js_and; destruct (to_boolean a) eqn:E; [reflexivity | exact E]. Qed.

Lemma handleSend_affectState (st : AppState) (outcome : FetchOutcome) :
  affectState (fst (handleSend st outcome))
  = if completes st outcome
       && to_boolean (offered (lit "debug") outcome)
       && to_boolean (member (offered (lit "debug") outcome) (lit "affect_state"))
    then member (offered (lit "debug") outcome) (lit "affect_state")
    else affectState st.
Proof.
  handleSend_cases st outcome; try reflexivity.
  unfold response_applied; rewrite js_and_truthy; cbn [andb].
  destruct (to_boolean (member data (lit "debug")) && _); reflexivity.
Qed.

Lemma step_field (f : AppState -> value) (st : AppState) (ev : Event) :
  f (setInput (match ev with Change t => t | _ => input st end) st) = f st ->
  (forall state, f (setAvatarState (VStr state) st) = f st) ->
  f (fst (step st ev)) = f st
  \/ exists outcome, outcome_of ev = Some outcome
                     /\ f (fst (step st ev)) = f (fst (handleSend st outcome)).
Proof.
  intros Hin Hav; destruct ev as [t | i | o | k sh o]; cbn [step fst].
  - left; exact Hin.
  - left; destruct (nth_error AVATAR_STATES i); [apply Hav | reflexivity].
  - right; exists o; split; reflexivity.
  - unfold handleKeyDown; destruct (_ && _); [| left; reflexivity].
    right; exists o; split; reflexivity.
Qed.

(** The debug object is replaced on every completed turn, by the response's
    [debug] when that is truthy and by an empty object otherwise, and on no
    other occasion; so it is never falsy. *)
Theorem debug_is_replaced_not_kept :
  (forall st outcome,
     debug (fst (handleSend st outcome))
     = if completes st outcome
       then js_or (offered (lit "debug") outcome) (VObj [])
       else debug st)
  /\ (forall evs, to_boolean (debug (fst (run initial_state evs))) = true).
Proof.
  split; [exact handleSend_debug|].
  intros evs.
  apply (run_invariant (fun s => to_boolean (debug s) = true) (fun _ => true));
    [| reflexivity | apply forallb_forall; auto].
  intros st ev Hst _.
  destruct (step_field debug st ev) as [-> | (o & _ & ->)]; auto.
  rewrite handleSend_debug; destruct (completes st o); [| exact Hst].
  unfold js_or; destruct (to_boolean (offered _ o)) eqn:E; [exact E | reflexivity].
Qed.

(** affectState changes only when a completed turn brings a truthy
    [debug.affect_state], which it then takes over as it is; a response
    without one leaves it as it was, so it never holds a falsy value. *)
Theorem affect_state_is_never_falsy :
  (forall st outcome,
     affectState (fst (handleSend st outcome))
     = if completes st outcome
          && to_boolean (offered (lit "debug") outcome)
          && to_boolean (member (offered (lit "debug") outcome) (lit "affect_state"))
       then member (offered (lit "debug") outcome) (lit "affect_state")
       else affectState st)
  /\ (forall evs, to_boolean (affectState (fst (run initial_state evs))) = true).
Proof.
  split; [exact handleSend_affectState|].
  intros evs.
  apply (run_invariant (fun s => to_boolean (affectState s) = true) (fun _ => true));
    [| reflexivity | apply forallb_forall; auto].
  intros st ev Hst _.
  destruct (step_field affectState st ev) as [-> | (o & _ & ->)]; auto.
  rewrite handleSend_affectState.
  destruct (completes st o && to_boolean (offered (lit "debug") o)); cbn [andb];
    [| exact Hst].
  destruct (to_boolean (member _ _)) eqn:E; [exact E | exact Hst].
Qed.

(** ** Beyond the claims: the request on the wire *)

Lemma run_affect (st : AppState) (evs : list Event) :
  affect (fst (run st evs)) = affect st.
Proof.
  apply (run_invariant (fun s => affect s = affect st) (fun _ => true));
    [| reflexivity | apply forallb_forall; auto].
  intros s ev Hs _; rewrite step_affect; exact Hs.
Qed.

Lemma run_avatarState_truthy (st : AppState) (evs : list Event) :
  to_boolean (avatarState st) = true ->
  to_boolean (avatarState (fst (run st evs))) = true.
Proof.
  intros Hst.
  apply (run_invariant (fun s => to_boolean (avatarState s) = true) (fun _ => true));
    [| exact Hst | apply forallb_forall; auto].
  intros s ev Hs _.
  destruct (step_avatarState s ev)
    as [-> | [(i & state & _ & Hi & ->) | (o & _ & Ht & ->)]]; auto.
  destruct (nth_avatar_state i state Hi) as [_ H].
  destruct state; [discriminate | reflexivity].
Qed.

(** Every request of a run from the fresh component is written with the
    members [user_message], [affect] and [avatar_state], in that order, and
    before them [session_id] unless the stored id is [undefined]; the id
    [null] of a component that has had no response is written. *)
Theorem request_members (evs : list Event) (body : Body.t) :
  In body (snd (run initial_state evs)) ->
  map fst (body_members body)
  = match Body.session_id body with
    | VUndefined => []
    | _ => [lit "session_id"]
    end ++ [lit "user_message"; lit "affect"; lit "avatar_state"].
Proof.
  intros Hin.
  destruct (run_sent _ _ _ Hin) as (before & ev & after & _ & Hs).
  destruct (step_sent _ _ _ Hs) as (-> & _).
  pose proof (run_affect initial_state before) as Ha.
  pose proof (run_avatarState_truthy initial_state before eq_refl) as Hv.
  unfold body_members; cbn [Body.session_id Body.user_message Body.affect
                            Body.avatar_state filter snd].
  rewrite Ha; cbn [affect initial_state].
  destruct (avatarState (fst (run initial_state before)));
    try discriminate; destruct (sessionId (fst (run initial_state before)));
    reflexivity.
Qed.

Lemma carried_session_id (st : AppState) (evs : list Event) (ev : Event)
    (body : Body.t) :
  forallb quiet evs = true ->
  In body (snd (run st (evs ++ [ev]))) ->
  Body.session_id body = sessionId st.
Proof.
  intros Hq; destruct (quiet_run _ evs Hq st eq_refl) as [Hs Hb].
  rewrite run_app; cbn [snd]; intros Hin.
  apply in_app_or in Hin as [Hin | Hin]; [auto|].
  rewrite run_cons in Hin; cbn [snd run] in Hin.
  destruct (step (fst (run st evs)) ev) as [st3 [b|]] eqn:E;
    cbn [fst snd] in Hin; [| destruct Hin].
  destruct Hin as [<- | []].
  rewrite (proj1 (step_body _ _ _ _ E)); exact Hs.
Qed.

(** The session id is overwritten, not kept: when the response that completes
    a turn has no [session_id], the stored id becomes [undefined], and every
    request from then on, up to and including that of the next completing
    turn, is written without a [session_id] member. *)
Theorem missing_session_id_is_forgotten (st : AppState) (data : value)
    (evs : list Event) (ev : Event) (body : Body.t) :
  completes st (Resolves data) = true ->
  member data (lit "session_id") = VUndefined ->
  forallb quiet evs = true ->
  In body (snd (run (fst (handleSend st (Resolves data))) (evs ++ [ev]))) ->
  sessionId (fst (handleSend st (Resolves data))) = VUndefined
  /\ ~ In (lit "session_id") (map fst (body_members body)).
Proof.
  intros Hc Hm Hq Hin.
  assert (Hs : sessionId (fst (handleSend st (Resolves data))) = VUndefined)
    by (rewrite handleSend_sessionId, Hc; exact Hm).
  split; [exact Hs|].
  pose proof (carried_session_id _ _ _ _ Hq Hin) as Hb; rewrite Hs in Hb.
  unfold body_members; intros Hk.
  apply in_map_iff in Hk as (kv & Hk1 & Hk2).
  apply filter_In in Hk2 as [Hk2 Hkept].
  destruct Hk2 as [<- | [<- | [<- | [<- | []]]]]; cbn [fst snd] in *.
  - rewrite Hb in Hkept; discriminate.
  - discriminate.
  - discriminate.
  - discriminate.
Qed.

(** ** Beyond the claims: what is displayed *)

Lemma str_eqb_sym (a b : jsstring) : str_eqb a b = str_eqb b a.
Proof.
  destruct (str_eqb a b) eqn:E1, (str_eqb b a) eqn:E2; try reflexivity.
  - apply str_eqb_eq in E1; subst; rewrite (proj2 (str_eqb_eq b b) eq_refl) in E2.
    discriminate.
  - apply str_eqb_eq in E2; subst; rewrite (proj2 (str_eqb_eq a a) eq_refl) in E1.
    discriminate.
Qed.

Lemma existsb_str_In (s : jsstring) (l : list jsstring) :
  existsb (str_eqb s) l = true <-> In s l.
Proof.
  rewrite existsb_exists; split.
  - intros (x & Hx & E); apply str_eqb_eq in E; subst; exact Hx.
  - intros H; exists s; split; [exact H | apply str_eqb_eq; reflexivity].
Qed.

Lemma active_count (s : jsstring) (l : list jsstring) :
  NoDup l ->
  List.length
    (filter (str_eqb (lit "active"))
       (map (fun state => if str_eqb state s then lit "active" else []) l))
  = if existsb (str_eqb s) l then 1 else 0.
Proof.
  induction 1 as [|a l Hnotin Hnd IH]; [reflexivity|].
  cbn [map filter existsb]; rewrite (str_eqb_sym s a).
  destruct (str_eqb a s) eqn:E.
  - apply str_eqb_eq in E; subst a.
    replace (str_eqb (lit "active") (lit "active")) with true by reflexivity.
    cbn [orb List.length]; rewrite IH.
    destruct (existsb (str_eqb s) l) eqn:Ex; [| reflexivity].
    apply existsb_str_In in Ex; contradiction.
  - replace (str_eqb (lit "active") []) with false by reflexivity.
    cbn [orb]; exact IH.
Qed.

Lemma AVATAR_STATES_NoDup : NoDup AVATAR_STATES.
Proof.
  unfold AVATAR_STATES; repeat constructor; cbn; intuition discriminate.
Qed.

(** At most one avatar button is marked active: exactly one when avatarState
    is one of [AVATAR_STATES], none when it is any other value; and a click
    on a button marks that button. *)
Theorem one_button_is_active (st : AppState) :
  List.length (filter (str_eqb (lit "active")) (avatar_button_classes st))
  = (if in_avatar_states (avatarState st) then 1 else 0)
  /\ forall i state,
       nth_error AVATAR_STATES i = Some state ->
       nth_error (avatar_button_classes (fst (step st (ClickAvatar i)))) i
       = Some (lit "active").
Proof.
  split.
  - unfold avatar_button_classes, in_avatar_states.
    destruct (avatarState st) as [| | b | r | s | l | f];
      try reflexivity.
    exact (active_count s AVATAR_STATES AVATAR_STATES_NoDup).
  - intros i state Hi; cbn [step]; rewrite Hi; cbn [fst].
    unfold avatar_button_classes; cbn [avatarState setAvatarState].
    rewrite nth_error_map, Hi; cbn [option_map strict_eq_string].
    rewrite (proj2 (str_eqb_eq state state) eq_refl); reflexivity.
Qed.

(** Two avatar names have the same image source only if they are the same
    name. *)
Theorem avatar_src_tells_names_apart (st1 st2 : AppState) (a b : jsstring) :
  avatarState st1 = VStr a ->
  avatarState st2 = VStr b ->
  a <> b ->
  currentAvatarSrc st1 <> currentAvatarSrc st2.
Proof.
  unfold currentAvatarSrc; intros -> -> Hab; cbn [to_string]; intros H.
  apply app_inv_head in H; apply app_inv_tail in H; exact (Hab H).
Qed.

(** A response is not checked for its status or its shape.  One that is
    neither [null] nor carries any of [session_id], [reply], [avatar_state]
    and [debug] (an error body, an array, a number) completes the turn all the
    same: the assistant message appended has [undefined] as its content, the
    session id is forgotten, debug is emptied, and the avatar and the affect
    estimate stay. *)
Theorem response_without_members (st : AppState) (data : value) :
  completes st (Resolves data) = true ->
  member data (lit "session_id") = VUndefined ->
  member data (lit "reply") = VUndefined ->
  member data (lit "avatar_state") = VUndefined ->
  member data (lit "debug") = VUndefined ->
  let st' := fst (handleSend st (Resolves data)) in
  messages st'
  = messages st ++ [user_message_of (trim (input st)); assistant_message VUndefined]
  /\ sessionId st' = VUndefined
  /\ debug st' = VObj []
  /\ avatarState st' = avatarState st
  /\ affectState st' = affectState st
  /\ input st' = [].
Proof.
  intros Hc Hs Hr Ha Hd; cbv zeta.
  assert (Htext : to_boolean (VStr (trim (input st))) = true)
    by (unfold completes in Hc; apply andb_true_iff in Hc as [H _]; exact H).
  rewrite (handleSend_messages _ _ Hc), handleSend_sessionId, handleSend_debug,
    handleSend_avatarState, handleSend_affectState, handleSend_input, Hc, Htext.
  cbn [offered]; rewrite Hs, Hr, Ha, Hd.
  repeat split; reflexivity.
Qed.


(** ** Beyond the claims: renders and requests in flight *)

Lemma play_cons (l : Live) (h : Happening) (rest : list Happening) :
  play l (h :: rest)
  = (fst (play (fst (happen l h)) rest),
     match snd (happen l h) with
     | Some b => b :: snd (play (fst (happen l h)) rest)
     | None => snd (play (fst (happen l h)) rest)
     end).
Proof.
  cbn [play]; destruct (happen l h) as [l1 sent]; cbn [fst snd].
  destruct (play l1 rest); reflexivity.
Qed.

Lemma play_app (l : Live) (hs1 hs2 : list Happening) :
  play l (hs1 ++ hs2)
  = (fst (play (fst (play l hs1)) hs2),
     snd (play l hs1) ++ snd (play (fst (play l hs1)) hs2)).
Proof.
  revert l; induction hs1 as [|h hs1 IH]; intros l.
  - cbn; destruct (play l hs2); reflexivity.
  - rewrite <- app_comm_cons, !play_cons, IH; cbn [fst snd].
    destruct (snd (happen l h)); reflexivity.
Qed.

Lemma send_begins_blank (l : Live) :
  trim (input (rendered l)) = [] -> send_begins l = (l, None).
Proof. unfold send_begins; intros ->; reflexivity. Qed.

Lemma send_begins_text (l : Live) :
  trim (input (rendered l)) <> [] ->
  send_begins l
  = ({| rendered := rendered l;
        current :=
          setInput []
            (setMessages
               (messages (rendered l)
                  ++ [ {| role := user; content := VStr (trim (input (rendered l))) |} ])
               (current l));
        flights := flights l ++ [avatarState (rendered l)] |},
     Some {| Body.session_id := sessionId (rendered l);
             Body.user_message := trim (input (rendered l));
             Body.affect := affect (rendered l);
             Body.avatar_state := avatarState (rendered l) |}).
Proof.
  unfold send_begins; destruct (trim (input (rendered l))); [congruence | reflexivity].
Qed.

(** The runs of [run] are the schedules in which every request settles and
    the component renders before the next event. *)
Lemma play_event (st : AppState) (ev : Event) :
  play (at_rest st) (happenings_of ev)
  = (at_rest (fst (step st ev)),
     match snd (step st ev) with Some b => [b] | None => [] end).
Proof.
  assert (Hsend : forall o,
            play (fst (send_begins (at_rest st))) [Settled 0 o; Rendered]
            = (at_rest (fst (handleSend st o)), [])
            /\ snd (send_begins (at_rest st)) = snd (handleSend st o)).
  { intros o; unfold handleSend.
    destruct (list_eq_dec N.eq_dec (trim (input st)) []) as [E | E].
    - rewrite (send_begins_blank (at_rest st) E), (begin_blank st E); split; reflexivity.
    - rewrite (send_begins_text (at_rest st) E), (begin_text st E); split; reflexivity. }
  destruct ev as [t | i | o | k sh o]; cbn [happenings_of step].
  - reflexivity.
  - cbn; destruct (nth_error AVATAR_STATES i); reflexivity.
  - rewrite play_cons; cbn [happen]; destruct (Hsend o) as [-> ->]; reflexivity.
  - unfold handleKeyDown; rewrite play_cons; cbn [happen].
    destruct (str_eqb k (lit "Enter") && negb sh);
      [destruct (Hsend o) as [-> ->]; reflexivity | reflexivity].
Qed.

Lemma run_as_play (st : AppState) (evs : list Event) :
  play (at_rest st) (flat_map happenings_of evs)
  = (at_rest (fst (run st evs)), snd (run st evs)).
Proof.
  revert st; induction evs as [|ev evs IH]; intros st; [reflexivity|].
  cbn [flat_map]; rewrite play_app, play_event, run_cons; cbn [fst snd].
  rewrite IH; cbn [fst snd].
  destruct (snd (step st ev)); reflexivity.
Qed.

Lemma remove_nth_length {A} (k : nat) (l : list A) (x : A) :
  nth_error l k = Some x -> S (List.length (remove_nth k l)) = List.length l.
Proof.
  revert l; induction k as [|k IH]; intros [|y l]; cbn; try discriminate.
  - reflexivity.
  - intros H; f_equal; exact (IH l H).
Qed.

Lemma happen_history (seen : bool) (l : Live) (h : Happening) :
  (seen = true -> messages (rendered l) = messages (current l)) ->
  match h with SendClicked | KeyPressed _ _ => seen | _ => true end = true ->
  (exists added,
     messages (current (fst (happen l h))) = messages (current l) ++ added)
  /\ List.length (messages (current (fst (happen l h))))
     + List.length (flights (fst (happen l h)))
     = List.length (messages (current l)) + List.length (flights l)
       + match snd (happen l h) with Some _ => 2 | None => 0 end
  /\ (history_in_view seen h = true ->
      messages (rendered (fst (happen l h))) = messages (current (fst (happen l h)))).
Proof.
  intros Hseen Hsend.
  assert (Hsame : (exists added : list Message,
                     messages (current l) = messages (current l) ++ added)
                  /\ List.length (messages (current l)) + List.length (flights l)
                     = List.length (messages (current l)) + List.length (flights l) + 0).
  { split; [exists []; rewrite app_nil_r; reflexivity | lia]. }
  assert (Hbegin : seen = true ->
            (exists added,
               messages (current (fst (send_begins l))) = messages (current l) ++ added)
            /\ List.length (messages (current (fst (send_begins l))))
               + List.length (flights (fst (send_begins l)))
               = List.length (messages (current l)) + List.length (flights l)
                 + match snd (send_begins l) with Some _ => 2 | None => 0 end
            /\ (false = true ->
                messages (rendered (fst (send_begins l)))
                = messages (current (fst (send_begins l))))).
  { intros Hs; specialize (Hseen Hs).
    destruct (list_eq_dec N.eq_dec (trim (input (rendered l))) []) as [E | E].
    - rewrite (send_begins_blank l E); cbn [fst snd].
      destruct Hsame as [H1 H2]; repeat split; [exact H1 | exact H2 | discriminate].
    - rewrite (send_begins_text l E); cbn [fst snd current flights messages
                                            setInput setMessages].
      rewrite Hseen, !length_app; cbn [List.length].
      repeat split; [eexists; reflexivity | lia | discriminate]. }
  destruct Hsame as [Hs1 Hs2].
  destruct h as [t | i | | k sh | k o |]; cbn [happen history_in_view].
  - repeat split; [exact Hs1 | exact Hs2 | exact Hseen].
  - destruct (nth_error AVATAR_STATES i);
      repeat split; [exact Hs1 | exact Hs2 | exact Hseen
                     | exact Hs1 | exact Hs2 | exact Hseen].
  - exact (Hbegin Hsend).
  - destruct (_ && _); [exact (Hbegin Hsend) |].
    repeat split; [exact Hs1 | exact Hs2 | discriminate].
  - destruct (nth_error (flights l) k) as [av|] eqn:E; cbn [fst snd current flights];
      [| repeat split; [exact Hs1 | exact Hs2 | discriminate]].
    destruct (settle_history av o (current l)) as (reply & ->).
    pose proof (remove_nth_length _ _ _ E).
    repeat split; [eexists; reflexivity | rewrite length_app; cbn; lia | discriminate].
  - cbn [fst snd current flights rendered].
    repeat split; [exact Hs1 | exact Hs2].
Qed.

(** With any number of requests in flight, settling in any order and whatever
    their outcomes, and provided every send is made by a render that has seen
    the history as it then is: the history only grows at its end, and each
    request accounts for two messages, the user's when it is sent and the
    assistant's when it settles. *)
Theorem history_with_flights (l : Live) (hs : list Happening) :
  messages (rendered l) = messages (current l) ->
  sends_see_history true hs = true ->
  (exists added,
     messages (current (fst (play l hs))) = messages (current l) ++ added)
  /\ List.length (messages (current (fst (play l hs))))
     + List.length (flights (fst (play l hs)))
     = List.length (messages (current l)) + List.length (flights l)
       + 2 * List.length (snd (play l hs)).
Proof.
  intros Hl Hhs.
  assert (H : forall seen l0,
            (seen = true -> messages (rendered l0) = messages (current l0)) ->
            sends_see_history seen hs = true ->
            (exists added,
               messages (current (fst (play l0 hs))) = messages (current l0) ++ added)
            /\ List.length (messages (current (fst (play l0 hs))))
               + List.length (flights (fst (play l0 hs)))
               = List.length (messages (current l0)) + List.length (flights l0)
                 + 2 * List.length (snd (play l0 hs))).
  { clear; induction hs as [|h hs IH]; intros seen l0 Hseen Hs.
    - cbn; split; [exists []; rewrite app_nil_r; reflexivity | lia].
    - cbn [sends_see_history] in Hs; apply andb_true_iff in Hs as [Hh Hrest].
      destruct (happen_history seen l0 h Hseen Hh) as ((added1 & Hadd1) & Hlen1 & Hnext).
      destruct (IH _ (fst (happen l0 h)) Hnext Hrest) as ((added2 & Hadd2) & Hlen2).
      rewrite play_cons; cbn [fst snd]; split.
      + exists (added1 ++ added2); rewrite Hadd2, Hadd1, app_assoc; reflexivity.
      + revert Hlen1; destruct (snd (happen l0 h)); cbn [List.length]; lia. }
  exact (H true l (fun _ => Hl) Hhs).
Qed.

(** A message sent after a response has arrived, but before the component
    has rendered again, is appended to the history of the last render: the
    assistant message of that response is dropped.  With a render in between
    it is kept. *)
Theorem send_before_render_drops_reply (st : AppState) (text : jsstring)
    (outcome : FetchOutcome) :
  trim (input st) <> [] ->
  trim text <> [] ->
  let arrived := [SendClicked; Rendered; Typed text; Rendered; Settled 0 outcome] in
  let first := {| role := user; content := VStr (trim (input st)) |} in
  let second := {| role := user; content := VStr (trim text) |} in
  messages (current (fst (play (at_rest st) (arrived ++ [SendClicked]))))
  = messages st ++ [first; second]
  /\ exists reply,
       messages (current (fst (play (at_rest st) (arrived ++ [Rendered; SendClicked]))))
       = messages st ++ [first; {| role := assistant; content := reply |}; second].
Proof.
  intros Hst Htext; cbv zeta.
  rewrite !play_app; cbn [fst].
  assert (Harrived : exists reply,
            fst (play (at_rest st)
                   [SendClicked; Rendered; Typed text; Rendered; Settled 0 outcome])
            = {| rendered :=
                   setInput text
                     (setInput []
                        (setMessages
                           (messages st
                              ++ [ {| role := user; content := VStr (trim (input st)) |} ])
                           st));
                 current :=
                   handleSend_settle (avatarState st) outcome
                     (setInput text
                        (setInput []
                           (setMessages
                              (messages st
                                 ++ [ {| role := user;
                                         content := VStr (trim (input st)) |} ])
                              st)));
                 flights := [] |}
            /\ messages
                 (handleSend_settle (avatarState st) outcome
                    (setInput text
                       (setInput []
                          (setMessages
                             (messages st
                                ++ [ {| role := user;
                                        content := VStr (trim (input st)) |} ])
                             st))))
               = (messages st
                    ++ [ {| role := user; content := VStr (trim (input st)) |} ])
                   ++ [ {| role := assistant; content := reply |} ]).
  { destruct (settle_history (avatarState st) outcome
                (setInput text
                   (setInput []
                      (setMessages
                         (messages st
                            ++ [ {| role := user; content := VStr (trim (input st)) |} ])
                         st)))) as (reply & Hreply).
    exists reply; split; [| exact Hreply].
    rewrite play_cons; cbn [happen fst].
    rewrite (send_begins_text (at_rest st) Hst); reflexivity. }
  destruct Harrived as (reply & -> & Hreply).
  split.
  - rewrite play_cons; cbn [happen fst play].
    rewrite send_begins_text by (cbn; exact Htext).
    cbn; rewrite <- app_assoc; reflexivity.
  - exists reply.
    rewrite !play_cons; cbn [happen fst play rendered current flights].
    rewrite send_begins_text by (cbn [rendered]; rewrite settle_input; exact Htext).
    cbn [fst current rendered].
    cbn [messages setInput setMessages].
    rewrite settle_input, Hreply, <- !app_assoc; reflexivity.
Qed.

Lemma idle_play (l : Live) (hs : list Happening) :
  forallb idle hs = true ->
  flights (fst (play l hs)) = flights l /\ snd (play l hs) = [].
Proof.
  revert l; induction hs as [|h hs IH]; intros l Hidle; [split; reflexivity|].
  cbn [forallb] in Hidle; apply andb_true_iff in Hidle as [Hh Hrest].
  rewrite play_cons; cbn [fst snd].
  destruct (IH (fst (happen l h)) Hrest) as [-> ->].
  destruct h as [t | i | | k sh | k o |]; try discriminate; cbn [happen].
  - split; reflexivity.
  - destruct (nth_error AVATAR_STATES i); split; reflexivity.
  - split; reflexivity.
Qed.

(** A call of [handleSend] works with the avatarState it started with.  When
    its response arrives and completes the turn, avatarState becomes the
    response's [avatar_state] if that is truthy and otherwise the avatarState
    of the time of sending: avatar buttons clicked while the request was in
    flight are undone.  When the turn fails they stay. *)
Theorem click_in_flight_is_undone (st : AppState) (mid : list Happening)
    (outcome : FetchOutcome) :
  trim (input st) <> [] ->
  forallb idle mid = true ->
  let before := fst (play (at_rest st) (SendClicked :: mid)) in
  let after := fst (play (at_rest st) (SendClicked :: mid ++ [Settled 0 outcome])) in
  flights before = [avatarState st]
  /\ flights after = []
  /\ avatarState (current after)
     = if succeeds outcome
       then js_or (offered (lit "avatar_state") outcome) (avatarState st)
       else avatarState (current before).
Proof.
  intros Ht Hidle; cbv zeta.
  rewrite app_comm_cons, play_app; cbn [fst].
  set (before := fst (play (at_rest st) (SendClicked :: mid))).
  assert (Hb : flights before = [avatarState st]).
  { unfold before; rewrite play_cons; cbn [fst happen].
    rewrite (proj1 (idle_play _ mid Hidle)).
    rewrite (send_begins_text (at_rest st) Ht); reflexivity. }
  split; [exact Hb|].
  destruct before as [seen st2 fl]; cbn [flights current] in *; subst fl.
  cbn; split; [reflexivity | apply settle_avatarState].
Qed.

Lemma remove_nth_Forall {A} (P : A -> Prop) (k : nat) (l : list A) :
  Forall P l -> Forall P (remove_nth k l).
Proof.
  intros H; unfold remove_nth; apply Forall_app; split.
  - apply Forall_forall; intros x Hx.
    rewrite Forall_forall in H; apply H.
    rewrite <- (firstn_skipn k l); apply in_or_app; left; exact Hx.
  - apply Forall_forall; intros x Hx.
    rewrite Forall_forall in H; apply H.
    rewrite <- (firstn_skipn (S k) l); apply in_or_app; right; exact Hx.
Qed.

Lemma happen_keeps_membership (ok : value -> bool) :
  (forall i state, nth_error AVATAR_STATES i = Some state -> ok (VStr state) = true) ->
  forall l h,
    avatar_states_are ok l ->
    settles_with ok h = true ->
    avatar_states_are ok (fst (happen l h)).
Proof.
  intros Hbuttons l h Hsame Hh.
  pose proof Hsame as (Hcur & Hren & Hfl).
  assert (Hbegin : avatar_states_are ok (fst (send_begins l))).
  { destruct (list_eq_dec N.eq_dec (trim (input (rendered l))) []) as [E | E].
    - rewrite (send_begins_blank l E); exact Hsame.
    - rewrite (send_begins_text l E); unfold avatar_states_are.
      cbn [fst current rendered flights avatarState setInput setMessages].
      split; [exact Hcur | split; [exact Hren |]].
      apply Forall_app; split; [exact Hfl | repeat constructor; exact Hren]. }
  destruct h as [t | i | | k sh | k o |]; cbn [happen].
  - exact Hsame.
  - destruct (nth_error AVATAR_STATES i) as [state|] eqn:E; [| exact Hsame].
    unfold avatar_states_are; cbn.
    split; [exact (Hbuttons i state E) | split; [exact Hren | exact Hfl]].
  - exact Hbegin.
  - destruct (_ && _); [exact Hbegin | exact Hsame].
  - destruct (nth_error (flights l) k) as [av|] eqn:E; [| exact Hsame].
    unfold avatar_states_are; cbn [fst current rendered flights].
    split; [| split; [exact Hren | apply remove_nth_Forall; exact Hfl]].
    rewrite settle_avatarState.
    destruct (succeeds o); [| exact Hcur].
    cbn [settles_with] in Hh; unfold js_or.
    destruct (to_boolean (offered (lit "avatar_state") o)); cbn in Hh; [exact Hh|].
    rewrite Forall_forall in Hfl; apply Hfl; exact (nth_error_In _ _ E).
  - unfold avatar_states_are; cbn [fst current rendered flights].
    split; [exact Hcur | split; [exact Hcur | exact Hfl]].
Qed.

Lemma play_keeps_membership (ok : value -> bool) :
  (forall i state, nth_error AVATAR_STATES i = Some state -> ok (VStr state) = true) ->
  forall hs l,
    avatar_states_are ok l ->
    forallb (settles_with ok) hs = true ->
    avatar_states_are ok (fst (play l hs)).
Proof.
  intros Hbuttons; induction hs as [|h hs IH]; intros l Hl Hhs; [exact Hl|].
  cbn [forallb] in Hhs; apply andb_true_iff in Hhs as [Hh Hrest].
  rewrite play_cons; cbn [fst]; apply (IH _ (happen_keeps_membership ok Hbuttons l h Hl Hh) Hrest).
Qed.

(** With requests in flight as well, avatarState stays one of
    [AVATAR_STATES] as long as every response that settles offers an
    [avatar_state] that is missing, falsy or one of them. *)
Theorem avatar_state_membership_with_flights (hs : list Happening) :
  forallb (settles_with in_avatar_states) hs = true ->
  in_avatar_states (avatarState (current (fst (play (at_rest initial_state) hs)))) = true.
Proof.
  intros Hhs.
  apply (play_keeps_membership in_avatar_states) with (l := at_rest initial_state) in Hhs.
  - exact (proj1 Hhs).
  - intros i state Hi; exact (proj1 (nth_avatar_state i state Hi)).
  - split; [reflexivity | split; [reflexivity | constructor]].
Qed.

(** Under every schedule of events, renders and responses, and whatever the
    responses hold, avatarState is never falsy. *)
Theorem avatar_state_is_never_falsy_with_flights (hs : list Happening) :
  to_boolean (avatarState (current (fst (play (at_rest initial_state) hs)))) = true.
Proof.
  assert (Hhs : forallb (settles_with to_boolean) hs = true).
  { apply forallb_forall; intros h _; destruct h; try reflexivity.
    cbn; destruct (to_boolean _); reflexivity. }
  apply (play_keeps_membership to_boolean) with (l := at_rest initial_state) in Hhs.
  - exact (proj1 Hhs).
  - intros i state Hi; destruct (nth_avatar_state i state Hi) as [_ H].
    destruct state; [discriminate | reflexivity].
  - split; [reflexivity | split; [reflexivity | constructor]].
Qed.

End Handlers.

(** ** Concrete runs *)

Lemma C3_witness :
  trim (input (setInput (lit "  ") initial_state)) = []
  /\ handleSend v8_type_error (setInput (lit "  ") initial_state)
       (Resolves (sample_response (VStr (lit "listening"))))
     = (setInput (lit "  ") initial_state, None).
Proof.
  split; [reflexivity|].
  apply (C3_blank_input_is_rejected v8_type_error
           (setInput (lit "  ") initial_state)
           (Resolves (sample_response (VStr (lit "listening"))))
           (lit "Enter") false).
  reflexivity.
Defined.

Lemma C4_witness :
  let st := setInput (lit " hi ") initial_state in
  let st2 := fst (handleSend v8_type_error st (Rejects (lit "TypeError: Failed to fetch"))) in
  sessionId st2 = VNull
  /\ avatarState st2 = VStr (lit "welcoming")
  /\ messages st2
     = messages st
         ++ [ user_message_of (lit "hi");
              error_message (lit "TypeError: Failed to fetch") ].
Proof.
  pose proof (C4_failed_turn_updates_nothing v8_type_error
                (setInput (lit " hi ") initial_state) _ _
                (Rejects (lit "TypeError: Failed to fetch"))
                (lit "TypeError: Failed to fetch")
                eq_refl eq_refl) as H.
  cbv zeta in H; destruct H as (H1 & H2 & _ & _ & _ & _ & H3).
  cbv zeta; split; [exact H1 | split; [exact H2 | exact H3]].
Defined.

Lemma C10_witness :
  trim (input (setInput (lit "  I feel tense ") initial_state)) <> []
  /\ exists st1 body,
       handleSend_begin (setInput (lit "  I feel tense ") initial_state)
       = Some (st1, body)
       /\ Body.user_message body = lit "I feel tense"
       /\ input st1 = [].
Proof.
  assert (H : trim (input (setInput (lit "  I feel tense ") initial_state)) <> [])
    by discriminate.
  split; [exact H|].
  destruct (C10_trimmed_text_is_sent v8_type_error _ (Rejects []) H)
    as (st1 & body & Hb & _ & Hm & _ & Hi & _).
  exists st1, body; split; [exact Hb | split; [exact Hm | exact Hi]].
Defined.

Lemma C1_witness :
  let evs := [ Change (lit "hello");
               ClickSend (Resolves (sample_response (VStr (lit "listening"))));
               ClickAvatar 2;
               Change (lit "still here");
               ClickSend (Resolves (sample_response VUndefined)) ] in
  in_avatar_states (avatarState initial_state) = true
  /\ forallb (avatar_offers in_avatar_states) evs = true
  /\ in_avatar_states (avatarState (fst (run v8_type_error initial_state evs))) = true.
Proof.
  cbv zeta; split; [reflexivity | split; [reflexivity|]].
  apply (proj2 (C1_avatar_state_follows_response v8_type_error)); reflexivity.
Defined.

(** C1 as stated fails: a response naming an avatar the backend found in its
    folder but the frontend does not list is adopted as it is. *)
Lemma C1_counterexample :
  let st := setInput (lit "hello") initial_state in
  let data := sample_response (VStr (lit "head_down")) in
  in_avatar_states (avatarState st) = true
  /\ completes st (Resolves data) = true
  /\ avatarState (fst (handleSend v8_type_error st (Resolves data)))
     = VStr (lit "head_down")
  /\ in_avatar_states (avatarState (fst (handleSend v8_type_error st (Resolves data))))
     = false.
Proof. cbv zeta; repeat split; reflexivity. Qed.

Lemma C2_witness :
  let turns := [ (lit "hello", sample_response (VStr (lit "listening")));
                 (lit " I feel tense ", sample_response VUndefined) ] in
  forallb successful turns = true
  /\ List.length
       (messages (fst (run v8_type_error initial_state (flat_map turn_events turns))))
     = 5.
Proof.
  cbv zeta; split; [reflexivity|].
  exact (proj2 (proj2 (C2_history_grows_by_two_per_turn v8_type_error
           [ (lit "hello", sample_response (VStr (lit "listening")));
             (lit " I feel tense ", sample_response VUndefined) ] eq_refl))).
Defined.

(** C2 as stated fails: after one successful turn on a fresh component the
    history holds three messages, the greeting first, not two. *)
Lemma C2_counterexample :
  let turns := [ (lit "hello", sample_response (VStr (lit "listening"))) ] in
  forallb successful turns = true
  /\ map role
       (messages (fst (run v8_type_error initial_state (flat_map turn_events turns))))
     = [assistant; user; assistant]
  /\ List.length
       (messages (fst (run v8_type_error initial_state (flat_map turn_events turns))))
     <> 2 * List.length turns.
Proof. cbv zeta; split; [reflexivity | split; [reflexivity | discriminate]]. Qed.

(** C5 as stated fails: the history of a fresh component is not empty. *)
Lemma C5_counterexample : messages initial_state <> [].
Proof. discriminate. Qed.

Lemma C6_witness :
  let st := setInput (lit "hello") initial_state in
  let data := sample_response (VStr (lit "listening")) in
  let evs := [ Change (lit "again"); ClickSend (Rejects (lit "TypeError: Failed to fetch"));
               ClickAvatar 1; Change (lit "and again") ] in
  let ev := ClickSend (Resolves (sample_response VUndefined)) in
  let first := {| Body.session_id := VNull;
                  Body.user_message := lit "hello";
                  Body.affect := VStr (lit "a little tense but open");
                  Body.avatar_state := VStr (lit "welcoming") |} in
  let later := {| Body.session_id := VStr (lit "s-1");
                  Body.user_message := lit "and again";
                  Body.affect := VStr (lit "a little tense but open");
                  Body.avatar_state := VStr (lit "listening") |} in
  (hd_error (snd (run v8_type_error initial_state
                    [Change (lit "hello"); ClickSend (Resolves data)])) = Some first
   /\ Body.session_id first = VNull)
  /\ completes st (Resolves data) = true
  /\ forallb quiet evs = true
  /\ In later (snd (run v8_type_error
                      (fst (handleSend v8_type_error st (Resolves data)))
                      (evs ++ [ev])))
  /\ Body.session_id later = member data (lit "session_id").
Proof.
  cbv zeta.
  pose proof (C6_session_id_is_carried_forward v8_type_error) as (_ & Hfirst & Hlater).
  split; [split; [reflexivity |] |].
  { exact (Hfirst [ Change (lit "hello");
                    ClickSend (Resolves (sample_response (VStr (lit "listening")))) ]
             _ eq_refl). }
  split; [reflexivity | split; [reflexivity |]].
  assert (Hin : In {| Body.session_id := VStr (lit "s-1");
                      Body.user_message := lit "and again";
                      Body.affect := VStr (lit "a little tense but open");
                      Body.avatar_state := VStr (lit "listening") |}
                  (snd (run v8_type_error
                          (fst (handleSend v8_type_error
                                  (setInput (lit "hello") initial_state)
                                  (Resolves (sample_response (VStr (lit "listening"))))))
                          ([ Change (lit "again");
                             ClickSend (Rejects (lit "TypeError: Failed to fetch"));
                             ClickAvatar 1; Change (lit "and again") ]
                             ++ [ClickSend (Resolves (sample_response VUndefined))]))))
    by (right; left; reflexivity).
  split; [exact Hin |].
  exact (Hlater (setInput (lit "hello") initial_state)
           (sample_response (VStr (lit "listening")))
           [ Change (lit "again"); ClickSend (Rejects (lit "TypeError: Failed to fetch"));
             ClickAvatar 1; Change (lit "and again") ]
           (ClickSend (Resolves (sample_response VUndefined)))
           _ eq_refl eq_refl Hin).
Defined.

(** C6 as stated fails: the id a successful turn returned is not sent by all
    later requests.  The second turn is answered by a JSON error body without
    [session_id]; the response is parsed, line 46 stores [undefined], and the
    third request goes out without a session id. *)
Lemma C6_counterexample :
  let error_body := VObj [ (lit "detail", VStr (lit "Internal Server Error")) ] in
  let evs := [ Change (lit "hello");
               ClickSend (Resolves (sample_response (VStr (lit "listening"))));
               Change (lit "again");
               ClickSend (Resolves error_body);
               Change (lit "and again");
               ClickSend (Resolves (sample_response (VStr (lit "listening")))) ] in
  member (sample_response (VStr (lit "listening"))) (lit "session_id") = VStr (lit "s-1")
  /\ map Body.session_id (snd (run v8_type_error initial_state evs))
     = [ VNull; VStr (lit "s-1"); VUndefined ]
  /\ map (fun b => map fst (body_members b)) (snd (run v8_type_error initial_state evs))
     = [ [lit "session_id"; lit "user_message"; lit "affect"; lit "avatar_state"];
         [lit "session_id"; lit "user_message"; lit "affect"; lit "avatar_state"];
         [lit "user_message"; lit "affect"; lit "avatar_state"] ]
  /\ nth_error (map Body.session_id (snd (run v8_type_error initial_state evs))) 2
     <> Some (VStr (lit "s-1")).
Proof.
  cbv zeta; split; [reflexivity | split; [reflexivity | split; [reflexivity |]]].
  discriminate.
Qed.

Lemma C7_witness :
  let evs := [ Change (lit "hello");
               ClickSend (Resolves (sample_response (VStr (lit "listening"))));
               Change (lit " more ");
               KeyDown (lit "Enter") false (Rejects (lit "TypeError: Failed to fetch")) ] in
  let st := setInput (lit " more ") initial_state in
  let body := {| Body.session_id := VStr (lit "s-1");
                 Body.user_message := lit "more";
                 Body.affect := VStr (lit "a little tense but open");
                 Body.avatar_state := VStr (lit "listening") |} in
  (snd (handleSend v8_type_error st (Rejects []))
   = Some {| Body.session_id := VNull;
             Body.user_message := lit "more";
             Body.affect := VStr (lit "a little tense but open");
             Body.avatar_state := VStr (lit "welcoming") |}
   /\ lit "more" <> [])
  /\ In body (snd (run v8_type_error initial_state evs))
  /\ Body.affect body = VStr (lit "a little tense but open").
Proof.
  cbv zeta.
  pose proof (C7_request_body v8_type_error) as (_ & Htext & Haffect).
  split; [split; [reflexivity |] |].
  { exact (Htext (setInput (lit " more ") initial_state) (Rejects []) _ eq_refl). }
  assert (Hin : In {| Body.session_id := VStr (lit "s-1");
                      Body.user_message := lit "more";
                      Body.affect := VStr (lit "a little tense but open");
                      Body.avatar_state := VStr (lit "listening") |}
                  (snd (run v8_type_error initial_state
                          [ Change (lit "hello");
                            ClickSend (Resolves (sample_response (VStr (lit "listening"))));
                            Change (lit " more ");
                            KeyDown (lit "Enter") false
                              (Rejects (lit "TypeError: Failed to fetch")) ])))
    by (right; left; reflexivity).
  split; [exact Hin | exact (Haffect _ _ Hin)].
Defined.

(** C7 as stated fails for the affect: the request does not carry the affect
    estimate the component holds and displays (affectState), neither on a
    fresh component nor after the backend has updated it. *)
Lemma C7_counterexample :
  let st0 := setInput (lit "hello") initial_state in
  let st1 := setInput (lit "more")
               (fst (handleSend v8_type_error st0
                       (Resolves (sample_response (VStr (lit "listening")))))) in
  affectState st0 = VStr (lit "emotionally neutral")
  /\ option_map Body.affect (snd (handleSend v8_type_error st0 (Rejects [])))
     = Some (VStr (lit "a little tense but open"))
  /\ affectState st1 = VStr (lit "sad")
  /\ option_map Body.affect (snd (handleSend v8_type_error st1 (Rejects [])))
     = Some (VStr (lit "a little tense but open"))
  /\ option_map Body.affect (snd (handleSend v8_type_error st1 (Rejects [])))
     <> Some (affectState st1).
Proof. cbv zeta; repeat split; try reflexivity; discriminate. Qed.

Lemma C9_witness :
  let evs := [ Change (lit "hello");
               ClickSend (Resolves (sample_response (VStr (lit "head_down"))));
               Change (lit "more");
               ClickSend (Resolves (sample_response (VStr []))) ] in
  let st := setInput (lit "hello") initial_state in
  (to_boolean (offered (lit "avatar_state") (Resolves (sample_response (VStr [])))) = false
   /\ avatarState (fst (handleSend v8_type_error st (Resolves (sample_response (VStr [])))))
      = VStr (lit "welcoming"))
  /\ forallb (avatar_offers is_string) evs = true
  /\ avatarState (fst (run v8_type_error initial_state evs)) = VStr (lit "head_down")
  /\ nonempty_string (avatarState (fst (run v8_type_error initial_state evs))) = true.
Proof.
  cbv zeta.
  pose proof (C9_avatar_state_is_kept v8_type_error) as (_ & _ & Hkeep & _ & _ & Hstr).
  split; [split; [reflexivity |] |].
  - exact (Hkeep (setInput (lit "hello") initial_state)
             (Resolves (sample_response (VStr []))) eq_refl).
  - split; [reflexivity | split; [reflexivity |]].
    apply Hstr; reflexivity.
Defined.

(** C9 as stated fails twice.  A truthy [avatar_state] that is not a string
    is adopted as it is.  And with a falsy [avatar_state] it is the value
    captured at the call that is written, not the previous one that is kept:
    the user sends from ["welcoming"], clicks "thinking" while the request is
    in flight, and the response sets avatarState back to ["welcoming"]. *)
Lemma C9_counterexample :
  let st := setInput (lit "hello") initial_state in
  let data := sample_response (VNum (lit "3")) in
  let clicked :=
    setAvatarState (VStr (lit "thinking"))
      (setInput [] (setMessages (messages st ++ [user_message_of (lit "hello")]) st)) in
  (nonempty_string (avatarState st) = true
   /\ avatarState (fst (handleSend v8_type_error st (Resolves data))) = VNum (lit "3")
   /\ nonempty_string (avatarState (fst (handleSend v8_type_error st (Resolves data))))
      = false)
  /\ (handleSend_begin st
      = Some (setInput [] (setMessages (messages st ++ [user_message_of (lit "hello")]) st),
              {| Body.session_id := VNull;
                 Body.user_message := lit "hello";
                 Body.affect := VStr (lit "a little tense but open");
                 Body.avatar_state := VStr (lit "welcoming") |})
      /\ avatarState clicked = VStr (lit "thinking")
      /\ to_boolean (member (sample_response VUndefined) (lit "avatar_state")) = false
      /\ avatarState
           (handleSend_settle v8_type_error (avatarState st)
              (Resolves (sample_response VUndefined)) clicked)
         = VStr (lit "welcoming")
      /\ avatarState
           (handleSend_settle v8_type_error (avatarState st)
              (Resolves (sample_response VUndefined)) clicked)
         <> avatarState clicked).
Proof.
  cbv zeta; split; [repeat split; reflexivity |].
  split; [reflexivity | split; [reflexivity | split; [reflexivity |]]].
  split; [reflexivity | discriminate].
Qed.

(** ** Concrete runs beyond the claims *)

Lemma request_iff_not_blank_witness :
  forallb is_white_space (input (setInput (lit " ") initial_state)) = true
  /\ snd (handleSend v8_type_error (setInput (lit " ") initial_state) (Rejects []))
     = None.
Proof.
  split; [reflexivity|].
  apply (proj2 (request_iff_not_blank v8_type_error
                  (setInput (lit " ") initial_state) (Rejects []))).
  reflexivity.
Defined.

Lemma sent_text_is_trimmed_witness :
  let evs := [ Change (lit "  I feel tense ");
               ClickSend (Rejects (lit "TypeError: Failed to fetch")) ] in
  let body := {| Body.session_id := VNull;
                 Body.user_message := lit "I feel tense";
                 Body.affect := VStr (lit "a little tense but open");
                 Body.avatar_state := VStr (lit "welcoming") |} in
  In body (snd (run v8_type_error initial_state evs))
  /\ trim (Body.user_message body) = Body.user_message body.
Proof.
  cbv zeta.
  assert (Hin : In {| Body.session_id := VNull;
                      Body.user_message := lit "I feel tense";
                      Body.affect := VStr (lit "a little tense but open");
                      Body.avatar_state := VStr (lit "welcoming") |}
                  (snd (run v8_type_error initial_state
                          [ Change (lit "  I feel tense ");
                            ClickSend (Rejects (lit "TypeError: Failed to fetch")) ])))
    by (left; reflexivity).
  split; [exact Hin|].
  exact (proj2 (proj2 (proj2
           (sent_text_is_trimmed v8_type_error initial_state _ _ Hin)))).
Defined.

Lemma key_press_sends_on_enter_witness :
  let st := setInput (lit "hello") initial_state in
  (lit "Enter" = lit "Enter" /\ false = false /\ trim (input st) <> [])
  /\ snd (handleKeyDown v8_type_error (lit "Enter") false st (Rejects [])) <> None
  /\ snd (handleKeyDown v8_type_error (lit "Enter") true st (Rejects [])) = None
  /\ fst (handleKeyDown v8_type_error (lit "Enter") true st (Rejects [])) = st.
Proof.
  cbv zeta.
  assert (H : lit "Enter" = lit "Enter" /\ false = false
              /\ trim (input (setInput (lit "hello") initial_state)) <> [])
    by (repeat split; discriminate).
  split; [exact H | split].
  - exact (proj2 (proj1 (key_press_sends_on_enter v8_type_error (lit "Enter") false
                           (setInput (lit "hello") initial_state) (Rejects []))) H).
  - split; [reflexivity|].
    exact (proj2 (key_press_sends_on_enter v8_type_error (lit "Enter") true
                    (setInput (lit "hello") initial_state) (Rejects [])) eq_refl).
Defined.

Lemma request_members_witness :
  let evs := [ Change (lit "hello");
               ClickSend (Rejects (lit "TypeError: Failed to fetch")) ] in
  let body := {| Body.session_id := VNull;
                 Body.user_message := lit "hello";
                 Body.affect := VStr (lit "a little tense but open");
                 Body.avatar_state := VStr (lit "welcoming") |} in
  In body (snd (run v8_type_error initial_state evs))
  /\ map fst (body_members body)
     = [lit "session_id"; lit "user_message"; lit "affect"; lit "avatar_state"].
Proof.
  cbv zeta.
  assert (Hin : In {| Body.session_id := VNull;
                      Body.user_message := lit "hello";
                      Body.affect := VStr (lit "a little tense but open");
                      Body.avatar_state := VStr (lit "welcoming") |}
                  (snd (run v8_type_error initial_state
                          [ Change (lit "hello");
                            ClickSend (Rejects (lit "TypeError: Failed to fetch")) ])))
    by (left; reflexivity).
  split; [exact Hin|].
  exact (request_members v8_type_error _ _ Hin).
Defined.

Lemma missing_session_id_is_forgotten_witness :
  let st := setInput (lit "hello")
              (setSessionId (VStr (lit "s-1")) initial_state) in
  let data := VObj [ (lit "reply", VStr (lit "That sounds hard.")) ] in
  let evs := [ Change (lit "again") ] in
  let ev := ClickSend (Rejects (lit "TypeError: Failed to fetch")) in
  let body := {| Body.session_id := VUndefined;
                 Body.user_message := lit "again";
                 Body.affect := VStr (lit "a little tense but open");
                 Body.avatar_state := VStr (lit "welcoming") |} in
  completes st (Resolves data) = true
  /\ member data (lit "session_id") = VUndefined
  /\ forallb quiet evs = true
  /\ In body (snd (run v8_type_error
                     (fst (handleSend v8_type_error st (Resolves data)))
                     (evs ++ [ev])))
  /\ sessionId (fst (handleSend v8_type_error st (Resolves data))) = VUndefined
  /\ map fst (body_members body)
     = [lit "user_message"; lit "affect"; lit "avatar_state"].
Proof.
  cbv zeta.
  assert (Hin : In {| Body.session_id := VUndefined;
                      Body.user_message := lit "again";
                      Body.affect := VStr (lit "a little tense but open");
                      Body.avatar_state := VStr (lit "welcoming") |}
                  (snd (run v8_type_error
                          (fst (handleSend v8_type_error
                                  (setInput (lit "hello")
                                     (setSessionId (VStr (lit "s-1")) initial_state))
                                  (Resolves (VObj [ (lit "reply",
                                                     VStr (lit "That sounds hard.")) ]))))
                          ([ Change (lit "again") ]
                             ++ [ClickSend (Rejects (lit "TypeError: Failed to fetch"))]))))
    by (left; reflexivity).
  split; [reflexivity | split; [reflexivity | split; [reflexivity |]]].
  split; [exact Hin | split; [| reflexivity]].
  exact (proj1 (missing_session_id_is_forgotten v8_type_error
                  (setInput (lit "hello")
                     (setSessionId (VStr (lit "s-1")) initial_state))
                  (VObj [ (lit "reply", VStr (lit "That sounds hard.")) ])
                  [ Change (lit "again") ]
                  (ClickSend (Rejects (lit "TypeError: Failed to fetch")))
                  _ eq_refl eq_refl eq_refl Hin)).
Defined.

Lemma one_button_is_active_witness :
  nth_error AVATAR_STATES 2 = Some (lit "concerned")
  /\ avatar_button_classes
       (fst (step v8_type_error initial_state (ClickAvatar 2)))
     = [ []; []; lit "active"; []; [] ]
  /\ nth_error (avatar_button_classes
                  (fst (step v8_type_error initial_state (ClickAvatar 2)))) 2
     = Some (lit "active").
Proof.
  split; [reflexivity | split; [reflexivity|]].
  exact (proj2 (one_button_is_active v8_type_error initial_state)
           2 (lit "concerned") eq_refl).
Defined.

Lemma avatar_src_tells_names_apart_witness :
  let st2 := setAvatarState (VStr (lit "listening")) initial_state in
  avatarState initial_state = VStr (lit "welcoming")
  /\ avatarState st2 = VStr (lit "listening")
  /\ lit "welcoming" <> lit "listening"
  /\ currentAvatarSrc initial_state <> currentAvatarSrc st2.
Proof.
  cbv zeta.
  assert (H : lit "welcoming" <> lit "listening") by discriminate.
  split; [reflexivity | split; [reflexivity | split; [exact H|]]].
  exact (avatar_src_tells_names_apart initial_state
           (setAvatarState (VStr (lit "listening")) initial_state)
           (lit "welcoming") (lit "listening") eq_refl eq_refl H).
Defined.

Lemma response_without_members_witness :
  let st := setInput (lit "hello")
              (setSessionId (VStr (lit "s-1")) initial_state) in
  let data := VObj [ (lit "detail", VStr (lit "Internal Server Error")) ] in
  let st' := fst (handleSend v8_type_error st (Resolves data)) in
  completes st (Resolves data) = true
  /\ messages st'
     = messages st ++ [user_message_of (lit "hello"); assistant_message VUndefined]
  /\ sessionId st' = VUndefined
  /\ debug st' = VObj [].
Proof.
  pose proof (response_without_members v8_type_error
                (setInput (lit "hello")
                   (setSessionId (VStr (lit "s-1")) initial_state))
                (VObj [ (lit "detail", VStr (lit "Internal Server Error")) ])
                eq_refl eq_refl eq_refl eq_refl eq_refl) as H.
  cbv zeta in H; destruct H as (H1 & H2 & H3 & _).
  cbv zeta; split; [reflexivity | split; [exact H1 | split; [exact H2 | exact H3]]].
Defined.

Lemma click_in_flight_is_undone_witness :
  let st := setInput (lit "hello") initial_state in
  let mid := [ AvatarClicked 4; Rendered; Typed (lit "and") ] in
  let outcome := Resolves (sample_response VUndefined) in
  trim (input st) <> []
  /\ forallb idle mid = true
  /\ avatarState (current (fst (play v8_type_error (at_rest st) (SendClicked :: mid))))
     = VStr (lit "thinking")
  /\ avatarState
       (current (fst (play v8_type_error (at_rest st)
                        (SendClicked :: mid ++ [Settled 0 outcome]))))
     = VStr (lit "welcoming").
Proof.
  cbv zeta.
  assert (Ht : trim (input (setInput (lit "hello") initial_state)) <> [])
    by discriminate.
  split; [exact Ht | split; [reflexivity | split; [reflexivity|]]].
  pose proof (click_in_flight_is_undone v8_type_error
                (setInput (lit "hello") initial_state)
                [ AvatarClicked 4; Rendered; Typed (lit "and") ]
                (Resolves (sample_response VUndefined)) Ht eq_refl) as H.
  cbv zeta in H; destruct H as (_ & _ & H); exact H.
Defined.

Lemma avatar_state_membership_with_flights_witness :
  let hs := [ Typed (lit "hello"); Rendered; SendClicked; Rendered;
              Typed (lit "are you there"); Rendered; SendClicked;
              Settled 1 (Resolves (sample_response (VStr (lit "listening"))));
              AvatarClicked 3;
              Settled 0 (Resolves (sample_response VUndefined)) ] in
  forallb (settles_with in_avatar_states) hs = true
  /\ List.length (snd (play v8_type_error (at_rest initial_state) hs)) = 2
  /\ flights (fst (play v8_type_error (at_rest initial_state) hs)) = []
  /\ in_avatar_states
       (avatarState (current (fst (play v8_type_error (at_rest initial_state) hs))))
     = true.
Proof.
  cbv zeta; split; [reflexivity | split; [reflexivity | split; [reflexivity|]]].
  apply (avatar_state_membership_with_flights v8_type_error); reflexivity.
Defined.

Lemma history_with_flights_witness :
  let hs := [ Typed (lit "hello"); Rendered; SendClicked; Rendered;
              Typed (lit "are you there"); Rendered; SendClicked;
              Settled 1 (Resolves (sample_response (VStr (lit "listening"))));
              Rendered;
              Settled 0 (Rejects (lit "TypeError: Failed to fetch")) ] in
  messages (rendered (at_rest initial_state)) = messages (current (at_rest initial_state))
  /\ sends_see_history true hs = true
  /\ map role (messages (current (fst (play v8_type_error (at_rest initial_state) hs))))
     = [assistant; user; user; assistant; assistant]
  /\ List.length (messages (current (fst (play v8_type_error (at_rest initial_state) hs))))
     + List.length (flights (fst (play v8_type_error (at_rest initial_state) hs)))
     = 1 + 0 + 2 * 2.
Proof.
  cbv zeta; split; [reflexivity | split; [reflexivity | split; [reflexivity|]]].
  exact (proj2 (history_with_flights v8_type_error (at_rest initial_state)
                  [ Typed (lit "hello"); Rendered; SendClicked; Rendered;
                    Typed (lit "are you there"); Rendered; SendClicked;
                    Settled 1 (Resolves (sample_response (VStr (lit "listening"))));
                    Rendered;
                    Settled 0 (Rejects (lit "TypeError: Failed to fetch")) ]
                  eq_refl eq_refl)).
Defined.

Lemma send_before_render_drops_reply_witness :
  let st := setInput (lit "hello") initial_state in
  let outcome := Resolves (sample_response (VStr (lit "listening"))) in
  let arrived := [ SendClicked; Rendered; Typed (lit "are you there"); Rendered;
                   Settled 0 outcome ] in
  trim (input st) <> []
  /\ trim (lit "are you there") <> []
  /\ map content
       (messages (current (fst (play v8_type_error (at_rest st) arrived))))
     = [ VStr (lit "Hello, I'm Dr. Lane. What would you like to talk about today?");
         VStr (lit "hello"); VStr (lit "That sounds hard.") ]
  /\ messages (current (fst (play v8_type_error (at_rest st) (arrived ++ [SendClicked]))))
     = messages st
         ++ [ {| role := user; content := VStr (lit "hello") |};
              {| role := user; content := VStr (lit "are you there") |} ].
Proof.
  cbv zeta.
  assert (H1 : trim (input (setInput (lit "hello") initial_state)) <> [])
    by discriminate.
  assert (H2 : trim (lit "are you there") <> []) by discriminate.
  split; [exact H1 | split; [exact H2 | split; [reflexivity |]]].
  pose proof (send_before_render_drops_reply v8_type_error
                (setInput (lit "hello") initial_state) (lit "are you there")
                (Resolves (sample_response (VStr (lit "listening")))) H1 H2) as H.
  cbv zeta in H; exact (proj1 H).
Defined.
